(** * Connelaide API: the reconciliation and budgeting data model

    A shallow embedding of the request handlers of [main.py] over the
    tables of [models.py].  Each handler is a function from the request
    and the store to a [Result]; [run] turns it into the store-level
    effect of one request: the session commits on success and is closed
    (rolled back) on an exception. *)

From Stdlib Require Import List String Ascii ZArith Bool Lia Sorted Permutation.
Import ListNotations.
Open Scope string_scope.
Open Scope list_scope.
Open Scope Z_scope.

(** ** Errors raised by the handlers

    Each constructor names one [HTTPException] detail (or uncaught Python
    exception) of [main.py]. *)
Inductive ApiError :=
| NotFound                                (** 404 "... not found" *)
| DuplicateName                           (** 400 "Category with this name already exists" *)
| InvalidDateFormat                       (** 400 "Invalid date format. Use YYYY-MM-DD" *)
| InvalidRange                            (** 400 "End date must be >= start date" *)
| OverlapConflict (start_date end_date : string)
                                          (** 400 "Date range overlaps with existing pay period (s to e)" *)
| InvalidCategory                         (** 400 "Category not found" *)
| InvalidTransaction                      (** 400 "Transaction not found" *)
| MissingQueryParam                       (** 422 from FastAPI: required query parameter absent *)
| IntegrityError                          (** sqlalchemy.exc.IntegrityError at flush/commit *)
| TypeErr                                 (** uncaught TypeError, e.g. strptime(None, ...) *)
| InvalidRecurrence                       (** rejected RecurringExpense template (spec 4.4) *)
| ResponseValidation.                     (** 500 from FastAPI: the returned value fails the response_model *)

Inductive Result (A : Type) := Ok (a : A) | Err (e : ApiError).
Arguments Ok {A} a.
Arguments Err {A} e.

Definition bind {A B} (c : Result A) (k : A -> Result B) : Result B :=
  match c with Ok a => k a | Err e => Err e end.

Notation "x <- c ;; k" := (bind c (fun x => k))
  (at level 61, c at next level, right associativity).

(** ** Tables (models.py)

    Floating-point amounts are carried opaquely as [Z]; no handler
    modelled here computes with them.  Columns that no handler below reads
    or writes (timestamps, account fields) are omitted. *)

Record ConnalaideCategory := mkCategory {
  cat_id : Z;
  cat_name : string;
  cat_target_budget : option Z
}.

Record Transaction := mkTransaction {
  txn_id : Z;
  txn_transaction_id : string;
  txn_date : string;
  txn_name : string;
  txn_amount : Z;
  txn_connelaide_category_id : option Z;
  txn_note : option string
}.

Record ProjectedExpense := mkProjectedExpense {
  pe_id : Z;
  pe_name : string;
  pe_amount : Z;
  pe_date : string;
  pe_connelaide_category_id : option Z;
  pe_note : option string;
  pe_is_struck_out : option bool;   (** nullable Boolean column *)
  pe_merged_transaction_id : option Z
}.

Record PayPeriod := mkPayPeriod {
  pp_id : Z;
  pp_start_date : string;
  pp_end_date : string;
  pp_checking_budget : option Z
}.

Record RefreshMetadata := mkRefreshMetadata {
  rm_key : string;
  rm_last_refreshed_at : Z   (** seconds since the Unix epoch, UTC *)
}.

(** A RecurringExpense row, with the columns [seed_data.py] writes. *)
Record RecurringExpense := mkRecurringExpense {
  re_id : Z;
  re_name : string;
  re_amount : Z;
  re_frequency : string;
  re_day_of_month : Z;
  re_month_of_year : option Z;
  re_start_date : string;
  re_end_date : option string;
  re_connelaide_category_id : option Z;
  re_note : option string;
  re_is_active : bool
}.

(** The database: each table in row (insertion) order, with the next
    value of the SERIAL primary keys that the handlers insert into. *)
Record Db := mkDb {
  categories : list ConnalaideCategory;
  transactions : list Transaction;
  projected_expenses : list ProjectedExpense;
  pay_periods : list PayPeriod;
  refresh_metadata : list RefreshMetadata;
  recurring_expenses : list RecurringExpense;
  category_seq : Z;
  pay_period_seq : Z;
  recurring_seq : Z
}.

Definition set_categories (db : Db) (cs : list ConnalaideCategory) (seq : Z) : Db :=
  mkDb cs (transactions db) (projected_expenses db) (pay_periods db)
       (refresh_metadata db) (recurring_expenses db) seq (pay_period_seq db)
       (recurring_seq db).

Definition set_transactions (db : Db) (ts : list Transaction) : Db :=
  mkDb (categories db) ts (projected_expenses db) (pay_periods db)
       (refresh_metadata db) (recurring_expenses db) (category_seq db)
       (pay_period_seq db) (recurring_seq db).

Definition set_pay_periods (db : Db) (ps : list PayPeriod) (seq : Z) : Db :=
  mkDb (categories db) (transactions db) (projected_expenses db) ps
       (refresh_metadata db) (recurring_expenses db) (category_seq db) seq
       (recurring_seq db).

Definition set_refresh_metadata (db : Db) (ms : list RefreshMetadata) : Db :=
  mkDb (categories db) (transactions db) (projected_expenses db) (pay_periods db)
       ms (recurring_expenses db) (category_seq db) (pay_period_seq db)
       (recurring_seq db).

Definition set_recurring_expenses (db : Db) (rs : list RecurringExpense) (seq : Z) : Db :=
  mkDb (categories db) (transactions db) (projected_expenses db) (pay_periods db)
       (refresh_metadata db) rs (category_seq db) (pay_period_seq db) seq.

(** One request against the store: the handler's changes are committed
    when it returns, and discarded ([db.close()] in [get_db] rolls the
    session back) when it raises. *)
Definition run {A} (h : Db -> Result (A * Db)) (db : Db) : Result A * Db :=
  match h db with
  | Ok (a, db') => (Ok a, db')
  | Err e => (Err e, db)
  end.

(** SQL [col == value] on a nullable integer column: NULL matches nothing. *)
Definition nullable_eqb (col : option Z) (v : Z) : bool :=
  match col with Some i => i =? v | None => false end.

(** ** Statement-level constraints of the database

    The tables are created by [Base.metadata.create_all] from the models:
    [connalaide_categories.name] is UNIQUE, and [transactions] and
    [projected_expenses] hold FOREIGN KEYs (no ON DELETE action) to
    [connalaide_categories.id]. *)

(** [INSERT INTO connalaide_categories]: fails on a duplicate name. *)
Definition db_insert_category (db : Db) (c : ConnalaideCategory) : Result Db :=
  if existsb (fun c' => String.eqb (cat_name c') (cat_name c)) (categories db)
  then Err IntegrityError
  else Ok (set_categories db (categories db ++ [c]) (category_seq db + 1)).

(** [DELETE FROM connalaide_categories WHERE id = i]: fails while a
    transaction or projected expense still references the row. *)
Definition db_delete_category (db : Db) (i : Z) : Result Db :=
  if existsb (fun t => nullable_eqb (txn_connelaide_category_id t) i) (transactions db)
     || existsb (fun p => nullable_eqb (pe_connelaide_category_id p) i) (projected_expenses db)
  then Err IntegrityError
  else Ok (set_categories db (filter (fun c => negb (cat_id c =? i)) (categories db))
                          (category_seq db)).

(** A value stored into a [VARCHAR(n)] column of PostgreSQL: too long
    fails the statement (a DataError at commit, modelled like the other
    commit-time failures by [IntegrityError]), unless the excess is all
    spaces, which is cut off. *)
Definition all_spaces (s : string) : bool :=
  forallb (fun c => Ascii.eqb c " ") (list_ascii_of_string s).

Definition pg_varchar (n : nat) (s : string) : Result string :=
  if (String.length s <=? n)%nat then Ok s
  else if all_spaces (substring n (String.length s - n) s) then Ok (substring 0 n s)
  else Err IntegrityError.

Definition pg_varchar_opt (n : nat) (s : option string) : Result (option string) :=
  match s with
  | Some v => v' <- pg_varchar n v ;; Ok (Some v')
  | None => Ok None
  end.

(** ** Category endpoints *)

Definition find_category (db : Db) (category_id : Z) : option ConnalaideCategory :=
  find (fun c => cat_id c =? category_id) (categories db).

(** [ConnalaideCategoryCreate] *)
Record ConnalaideCategoryCreate := mkCategoryCreate {
  ccc_name : string;
  ccc_target_budget : option Z
}.

(** [ConnalaideCategoryUpdate] after [model_dump(exclude_unset=True)]:
    [None] = field not sent, [Some None] = sent as null. *)
Record ConnalaideCategoryUpdate := mkCategoryUpdate {
  ccu_name : option (option string);
  ccu_target_budget : option (option Z)
}.

(** [create_category] *)
Definition create_category (category_data : ConnalaideCategoryCreate) (db : Db)
  : Result (ConnalaideCategory * Db) :=
  match find (fun c => String.eqb (cat_name c) (ccc_name category_data)) (categories db) with
  | Some _ => Err DuplicateName
  | None =>
      (* the INSERT at commit stores the name into VARCHAR(100) *)
      name <- pg_varchar 100 (ccc_name category_data) ;;
      let category := mkCategory (category_seq db) name None in
      db' <- db_insert_category db category ;;
      (* db.refresh(category): the stored row *)
      Ok (category, db')
  end.

Definition replace_category (db : Db) (c : ConnalaideCategory) : Db :=
  set_categories db
    (map (fun c' => if cat_id c' =? cat_id c then c else c') (categories db))
    (category_seq db).

(** [update_category] *)
Definition update_category (category_id : Z) (updates : ConnalaideCategoryUpdate) (db : Db)
  : Result (ConnalaideCategory * Db) :=
  match find_category db category_id with
  | None => Err NotFound
  | Some category =>
      let dup :=
        match ccu_name updates with
        | Some (Some n) =>
            existsb (fun c => String.eqb (cat_name c) n && negb (cat_id c =? category_id))
                    (categories db)
        | _ => false   (* name IS NULL matches no row *)
        end in
      if dup then Err DuplicateName else
      (* setattr for every field sent; the UPDATE at commit stores a sent
         name into VARCHAR(100) under the UNIQUE constraint *)
      let name_r : Result string :=
        match ccu_name updates with
        | None => Ok (cat_name category)
        | Some (Some n) =>
            n' <- pg_varchar 100 n ;;
            if existsb (fun c => String.eqb (cat_name c) n' && negb (cat_id c =? category_id))
                       (categories db)
            then Err IntegrityError else Ok n'
        | Some None => Err IntegrityError   (* NOT NULL violated at commit *)
        end in
      n <- name_r ;;
      let tb := match ccu_target_budget updates with
                | None => cat_target_budget category
                | Some v => v
                end in
      let category' := mkCategory category_id n tb in
      Ok (category', replace_category db category')
  end.

(** [delete_category] *)
Definition delete_category (category_id : Z) (db : Db) : Result (unit * Db) :=
  match find_category db category_id with
  | None => Err NotFound
  | Some _ =>
      (* Null out connelaide_category_id on any transactions using this category *)
      let txns :=
        map (fun t => if nullable_eqb (txn_connelaide_category_id t) category_id
                      then mkTransaction (txn_id t) (txn_transaction_id t) (txn_date t)
                             (txn_name t) (txn_amount t) None (txn_note t)
                      else t) (transactions db) in
      let db1 := set_transactions db txns in
      db2 <- db_delete_category db1 category_id ;;
      Ok (tt, db2)
  end.


(** ** Strings as the database compares them

    Date columns are VARCHAR and the handlers compare them with SQL
    [<=]/[>=] against the raw query strings: byte-wise lexicographic order
    (the C collation; for strings of digits and '-' in the same positions
    every collation agrees with it). *)

Fixpoint str_leb (a b : string) : bool :=
  match a, b with
  | EmptyString, _ => true
  | String _ _, EmptyString => false
  | String x a', String y b' =>
      if (nat_of_ascii x <? nat_of_ascii y)%nat then true
      else if Ascii.eqb x y then str_leb a' b' else false
  end.

Definition str_ltb (a b : string) : bool := str_leb a b && negb (String.eqb a b).

(** SQL comparison with a bound parameter that may be None (NULL): a
    comparison with NULL is never true. *)
Definition sql_le (a b : option string) : bool :=
  match a, b with Some x, Some y => str_leb x y | _, _ => false end.

(** ** [datetime.strptime(s, "%Y-%m-%d")]

    CPython's [_strptime] compiles the format to the regular expression
    [(?P<Y>\d\d\d\d)-(?P<m>1[0-2]|0[1-9]|[1-9])-(?P<d>3[0-1]|[1-2]\d|0[1-9]|[1-9]| [1-9])],
    takes the first match of [re.match] (alternatives tried left to
    right, with backtracking), raises ValueError if input remains after
    it ("unconverted data remains"), and then builds a [datetime.date],
    which raises ValueError for year 0 or a day past the end of the month.
    Parsers below return every match in the regex engine's priority order,
    so the head of the list is the match [re.match] returns.  Only ASCII
    digits are modelled for [\d]. *)

Definition Parser (A : Type) := string -> list (A * string).

Definition p_ret {A} (a : A) : Parser A := fun s => [(a, s)].

Definition p_bind {A B} (p : Parser A) (k : A -> Parser B) : Parser B :=
  fun s => flat_map (fun ar => k (fst ar) (snd ar)) (p s).

Definition p_alt {A} (p q : Parser A) : Parser A := fun s => p s ++ q s.

Definition digit_value (c : ascii) : option Z :=
  let n := nat_of_ascii c in
  if (48 <=? n)%nat && (n <=? 57)%nat then Some (Z.of_nat n - 48) else None.

(** One character of the class [[lo-hi]] of digits. *)
Definition p_digit (lo hi : Z) : Parser Z :=
  fun s => match s with
           | String c r =>
               match digit_value c with
               | Some v => if (lo <=? v) && (v <=? hi) then [(v, r)] else []
               | None => []
               end
           | EmptyString => []
           end.

Definition p_char (c : ascii) : Parser unit :=
  fun s => match s with
           | String x r => if Ascii.eqb x c then [(tt, r)] else []
           | EmptyString => []
           end.

(** [\d\d\d\d] *)
Definition re_Y : Parser Z :=
  p_bind (p_digit 0 9) (fun a => p_bind (p_digit 0 9) (fun b =>
  p_bind (p_digit 0 9) (fun c => p_bind (p_digit 0 9) (fun d =>
  p_ret (1000 * a + 100 * b + 10 * c + d))))).

(** [1[0-2]|0[1-9]|[1-9]] *)
Definition re_m : Parser Z :=
  p_alt (p_bind (p_char "1") (fun _ => p_bind (p_digit 0 2) (fun d => p_ret (10 + d))))
 (p_alt (p_bind (p_char "0") (fun _ => p_digit 1 9))
        (p_digit 1 9)).

(** [3[0-1]|[1-2]\d|0[1-9]|[1-9]| [1-9]] *)
Definition re_d : Parser Z :=
  p_alt (p_bind (p_char "3") (fun _ => p_bind (p_digit 0 1) (fun d => p_ret (30 + d))))
 (p_alt (p_bind (p_digit 1 2) (fun a => p_bind (p_digit 0 9) (fun b => p_ret (10 * a + b))))
 (p_alt (p_bind (p_char "0") (fun _ => p_digit 1 9))
 (p_alt (p_digit 1 9)
        (p_bind (p_char " ") (fun _ => p_digit 1 9))))).

Definition re_ymd : Parser (Z * Z * Z) :=
  p_bind re_Y (fun y => p_bind (p_char "-") (fun _ =>
  p_bind re_m (fun m => p_bind (p_char "-") (fun _ =>
  p_bind re_d (fun d => p_ret (y, m, d)))))).

Definition is_leap (y : Z) : bool :=
  ((y mod 4 =? 0) && negb (y mod 100 =? 0)) || (y mod 400 =? 0).

Definition days_in_month (y m : Z) : Z :=
  if m =? 2 then (if is_leap y then 29 else 28)
  else if (m =? 4) || (m =? 6) || (m =? 9) || (m =? 11) then 30 else 31.

(** [Some (y, m, d)] where [strptime] returns, [None] where it raises ValueError. *)
Definition strptime_ymd (s : string) : option (Z * Z * Z) :=
  match re_ymd s with
  | ((y, m, d), rest) :: _ =>
      if String.eqb rest "" then
        if (1 <=? y) && (d <=? days_in_month y m) then Some (y, m, d) else None
      else None
  | [] => None
  end.

(** Python [datetime.strptime] on a value that may be None. *)
Definition py_strptime (s : option string) : Result (Z * Z * Z) :=
  match s with
  | None => Err TypeErr
  | Some s' => match strptime_ymd s' with
               | Some d => Ok d
               | None => Err InvalidDateFormat
               end
  end.

(** [<] on the parsed datetimes (midnight of each day). *)
Definition date_ltb (a b : Z * Z * Z) : bool :=
  let '(y1, m1, d1) := a in
  let '(y2, m2, d2) := b in
  (y1 <? y2) || ((y1 =? y2) && ((m1 <? m2) || ((m1 =? m2) && (d1 <? d2)))).

(** ** Pay period endpoints *)

(** [validate_pay_period_dates]: only ValueError is caught. *)
Definition validate_pay_period_dates (start_date end_date : option string) : Result unit :=
  start <- py_strptime start_date ;;
  end_ <- py_strptime end_date ;;
  if date_ltb end_ start then Err InvalidRange else Ok tt.

(** [check_pay_period_overlap]: [query.first()] has no ORDER BY; the model
    returns the first matching row in table order. *)
Definition check_pay_period_overlap (db : Db) (start_date end_date : option string)
    (exclude_id : option Z) : Result unit :=
  let q := filter (fun p => sql_le (Some (pp_start_date p)) end_date
                            && sql_le start_date (Some (pp_end_date p)))
                  (pay_periods db) in
  let q := match exclude_id with
           | Some i => if i =? 0 then q   (* `if exclude_id:` is false for 0 *)
                       else filter (fun p => negb (pp_id p =? i)) q
           | None => q
           end in
  match q with
  | overlapping :: _ =>
      Err (OverlapConflict (pp_start_date overlapping) (pp_end_date overlapping))
  | [] => Ok tt
  end.

(** [PayPeriodCreate] *)
Record PayPeriodCreate := mkPayPeriodCreate {
  ppc_start_date : string;
  ppc_end_date : string;
  ppc_checking_budget : option Z
}.

(** [PayPeriodUpdate] after [model_dump(exclude_unset=True)]. *)
Record PayPeriodUpdate := mkPayPeriodUpdate {
  ppu_start_date : option (option string);
  ppu_end_date : option (option string);
  ppu_checking_budget : option (option Z)
}.

(** [create_pay_period] *)
Definition create_pay_period (pay_period_data : PayPeriodCreate) (db : Db)
  : Result (PayPeriod * Db) :=
  _ <- validate_pay_period_dates (Some (ppc_start_date pay_period_data))
                                 (Some (ppc_end_date pay_period_data)) ;;
  _ <- check_pay_period_overlap db (Some (ppc_start_date pay_period_data))
                                (Some (ppc_end_date pay_period_data)) None ;;
  let pay_period := mkPayPeriod (pay_period_seq db) (ppc_start_date pay_period_data)
                      (ppc_end_date pay_period_data) (ppc_checking_budget pay_period_data) in
  Ok (pay_period, set_pay_periods db (pay_periods db ++ [pay_period]) (pay_period_seq db + 1)).

Definition find_pay_period (db : Db) (pay_period_id : Z) : option PayPeriod :=
  find (fun p => pp_id p =? pay_period_id) (pay_periods db).

Definition replace_pay_period (db : Db) (p : PayPeriod) : Db :=
  set_pay_periods db
    (map (fun p' => if pp_id p' =? pp_id p then p else p') (pay_periods db))
    (pay_period_seq db).

(** setattr of a NOT NULL string column: sending null fails at commit. *)
Definition set_not_null (sent : option (option string)) (old : string) : Result string :=
  match sent with
  | None => Ok old
  | Some (Some v) => Ok v
  | Some None => Err IntegrityError
  end.

(** ["key" in update_data] *)
Definition is_set {A} (o : option A) : bool := match o with Some _ => true | None => false end.

(** [update_pay_period] *)
Definition update_pay_period (pay_period_id : Z) (updates : PayPeriodUpdate) (db : Db)
  : Result (PayPeriod * Db) :=
  match find_pay_period db pay_period_id with
  | None => Err NotFound
  | Some pay_period =>
      let new_start := match ppu_start_date updates with
                       | Some v => v | None => Some (pp_start_date pay_period) end in
      let new_end := match ppu_end_date updates with
                     | Some v => v | None => Some (pp_end_date pay_period) end in
      _ <- (if is_set (ppu_start_date updates) || is_set (ppu_end_date updates)
            then (_ <- validate_pay_period_dates new_start new_end ;;
                  check_pay_period_overlap db new_start new_end (Some pay_period_id))
            else Ok tt) ;;
      s <- set_not_null (ppu_start_date updates) (pp_start_date pay_period) ;;
      e <- set_not_null (ppu_end_date updates) (pp_end_date pay_period) ;;
      let b := match ppu_checking_budget updates with
               | Some v => v | None => pp_checking_budget pay_period end in
      let pay_period' := mkPayPeriod (pp_id pay_period) s e b in
      Ok (pay_period', replace_pay_period db pay_period')
  end.

(** [delete_pay_period] *)
Definition delete_pay_period (pay_period_id : Z) (db : Db) : Result (unit * Db) :=
  match find_pay_period db pay_period_id with
  | None => Err NotFound
  | Some _ =>
      Ok (tt, set_pay_periods db (filter (fun p => negb (pp_id p =? pay_period_id))
                                         (pay_periods db)) (pay_period_seq db))
  end.

(** ** Projected expense listing *)

(** FastAPI reads a scalar query parameter from the last occurrence of
    its name and ignores parameters the endpoint does not declare. *)
Definition query_get (query : list (string * string)) (k : string) : option string :=
  fold_left (fun acc kv => if String.eqb (fst kv) k then Some (snd kv) else acc) query None.

(** [ORDER BY date DESC]; rows with equal dates keep table order. *)
Fixpoint insert_date_desc (x : ProjectedExpense) (l : list ProjectedExpense) : list ProjectedExpense :=
  match l with
  | [] => [x]
  | y :: r => if str_ltb (pe_date y) (pe_date x) then x :: l else y :: insert_date_desc x r
  end.

Definition sort_date_desc (l : list ProjectedExpense) : list ProjectedExpense :=
  fold_right insert_date_desc [] l.

(** [e.category.name if e.category else None] *)
Definition category_name_of (db : Db) (category_id : option Z) : option string :=
  match category_id with
  | Some i => option_map cat_name (find_category db i)
  | None => None
  end.

(** FastAPI's validation of a returned row against [ProjectedExpenseResponse]
    (the response_model): [is_struck_out: bool] refuses a NULL column, and
    the request then fails with a server error. *)
Definition projected_expense_valid (r : ProjectedExpense * option string) : bool :=
  is_set (pe_is_struck_out (fst r)).

Definition projected_expense_response (r : ProjectedExpense * option string)
  : Result (ProjectedExpense * option string) :=
  if projected_expense_valid r then Ok r else Err ResponseValidation.

(** [get_projected_expenses]: declares only the required query parameters
    [start_date] and [end_date]; the rows are validated against
    [List[ProjectedExpenseResponse]]. *)
Definition get_projected_expenses (query : list (string * string)) (db : Db)
  : Result (list (ProjectedExpense * option string)) :=
  match query_get query "start_date", query_get query "end_date" with
  | Some start_date, Some end_date =>
      let expenses :=
        filter (fun e => str_leb start_date (pe_date e) && str_leb (pe_date e) end_date
                         && negb (is_set (pe_merged_transaction_id e)))
               (projected_expenses db) in
      let rows := map (fun e => (e, category_name_of db (pe_connelaide_category_id e)))
                      (sort_date_desc expenses) in
      if forallb projected_expense_valid rows then Ok rows else Err ResponseValidation
  | _, _ => Err MissingQueryParam
  end.

(** ** Refresh coordinator *)

(** Civil date (proleptic Gregorian) of a day number counted from
    1970-01-01, as Python's [datetime] computes it. *)
Definition civil_from_days (z0 : Z) : Z * Z * Z :=
  let z := z0 + 719468 in
  let era := z / 146097 in
  let doe := z - era * 146097 in
  let yoe := (doe - doe / 1460 + doe / 36524 - doe / 146096) / 365 in
  let y := yoe + era * 400 in
  let doy := doe - (365 * yoe + yoe / 4 - yoe / 100) in
  let mp := (5 * doy + 2) / 153 in
  let d := doy - (153 * mp + 2) / 5 + 1 in
  let m := if mp <? 10 then mp + 3 else mp - 9 in
  (if m <=? 2 then y + 1 else y, m, d).

(** Day number (from 1970-01-01) of a civil date. *)
Definition days_from_civil (y m d : Z) : Z :=
  let y' := if m <=? 2 then y - 1 else y in
  let era := y' / 400 in
  let yoe := y' - era * 400 in
  let doy := (153 * (if 2 <? m then m - 3 else m + 9) + 2) / 5 + d - 1 in
  let doe := yoe * 365 + yoe / 4 - yoe / 100 + doy in
  era * 146097 + doe - 719468.

Definition digit_char (n : Z) : ascii := ascii_of_nat (Z.to_nat (48 + n)).

Definition pad2 (n : Z) : string :=
  String (digit_char (n / 10 mod 10)) (String (digit_char (n mod 10)) EmptyString).

Definition pad4 (n : Z) : string :=
  String (digit_char (n / 1000 mod 10)) (String (digit_char (n / 100 mod 10))
    (String.append (pad2 n) EmptyString)).

Definition seconds_per_day : Z := 86400.

(** [%Y-%m-%d] of a civil date. *)
Definition format_ymd (ymd : Z * Z * Z) : string :=
  let '(y, m, d) := ymd in
  String.append (pad4 y) (String.append "-" (String.append (pad2 m) (String.append "-" (pad2 d)))).

(** [t.strftime("%Y-%m-%d")] for a UTC instant [t] in seconds. *)
Definition strftime_ymd (t : Z) : string :=
  format_ymd (civil_from_days (t / seconds_per_day)).

Definition timedelta_days (n : Z) : Z := n * seconds_per_day.

Definition refresh_key : string := "plaid_transactions".

Definition find_refresh_metadata (db : Db) : option RefreshMetadata :=
  find (fun m => String.eqb (rm_key m) refresh_key) (refresh_metadata db).

(** The [start_date]/[end_date] computation of [refresh_transactions]. *)
Definition refresh_window (metadata : option RefreshMetadata) (now : Z) : string * string :=
  let start_date :=
    match metadata with
    | Some m => strftime_ymd (rm_last_refreshed_at m - timedelta_days 14)
    | None => strftime_ymd (now - timedelta_days 30)
    end in
  (start_date, strftime_ymd now).

Local Set Warnings "-register-all".

(** Decoded JSON values. *)
Inductive Json :=
| JNull
| JBool (b : bool)
| JNum (n : Z)
| JStr (s : string)
| JArr (l : list Json)
| JObj (kvs : list (string * Json)).

(** A decoded JSON object as a Python dict: a repeated key keeps its last value. *)
Definition dict_get (kvs : list (string * Json)) (k : string) : option Json :=
  fold_left (fun acc kv => if String.eqb (fst kv) k then Some (snd kv) else acc) kvs None.

Definition dict_get_default (kvs : list (string * Json)) (k : string) (d : Json) : Json :=
  match dict_get kvs k with Some v => v | None => d end.

(** What [lambda_client.invoke] does: raise, or return a response with
    its optional [FunctionError] header and its raw payload text. *)
Inductive InvokeOutcome :=
| InvokeRaised
| Invoked (function_error : option string) (payload : string).

Record RefreshResponse := mkRefreshResponse {
  rr_success : bool;
  rr_transactions_fetched : option Z;
  rr_last_refreshed_at : option Z
}.

(** [if response.get("FunctionError"):] on the optional header: an empty
    string is falsy. *)
Definition py_truthy_str (o : option string) : bool :=
  match o with Some v => negb (String.eqb v "") | None => false end.

Section Refresh.
(** [json.loads]: [None] where it raises. *)
Variable loads : string -> option Json.

(** pydantic's lax parse of a string as an [int]: [None] where it refuses. *)
Variable str_to_int : string -> option Z.

(** pydantic's validation of [transactions_fetched: Optional[int]] on the
    decoded JSON value (a bool is accepted as 0 or 1); [None] where it
    raises ValidationError. *)
Definition validate_optional_int (v : Json) : option (option Z) :=
  match v with
  | JNull => Some None
  | JBool b => Some (Some (if b then 1 else 0))
  | JNum n => Some (Some n)
  | JStr s => option_map Some (str_to_int s)
  | JArr _ | JObj _ => None
  end.

(** The [transactions_count] extraction; [None] where Python raises
    ([.get] or [in] on a value that is not a dict, bad JSON body). *)
Definition transactions_count (response_payload : Json) : option Json :=
  match response_payload with
  | JObj kvs =>
      match dict_get kvs "body" with
      | Some b =>
          let body := match b with JStr s => loads s | _ => Some b end in
          match body with
          | Some (JObj bkvs) => Some (dict_get_default bkvs "transactions_count" (JNum 0))
          | _ => None
          end
      | None => Some (dict_get_default kvs "transactions_count" (JNum 0))
      end
  | _ => None
  end.

(** The metadata update after a successful invocation. *)
Definition record_refresh (db : Db) (now : Z) : Db :=
  match find_refresh_metadata db with
  | Some _ =>
      set_refresh_metadata db
        (map (fun m => if String.eqb (rm_key m) refresh_key
                       then mkRefreshMetadata (rm_key m) now else m) (refresh_metadata db))
  | None =>
      set_refresh_metadata db (refresh_metadata db ++ [mkRefreshMetadata refresh_key now])
  end.

Definition refresh_failed : RefreshResponse := mkRefreshResponse false None None.

(** [refresh_transactions]: [invoke] is the Lambda function called with
    the payload [{start_date, end_date}].  Every exception inside the
    [try] block is turned into a [success=False] response; the metadata
    is committed before the [RefreshResponse] is built, so a count that
    fails its validation gives [success=False] after the commit. *)
Definition refresh_transactions (invoke : string * string -> InvokeOutcome) (now : Z) (db : Db)
  : Result (RefreshResponse * Db) :=
  let metadata := find_refresh_metadata db in
  let window := refresh_window metadata now in
  match invoke window with
  | InvokeRaised => Ok (refresh_failed, db)
  | Invoked function_error payload =>
      match loads payload with
      | None => Ok (refresh_failed, db)
      | Some response_payload =>
          if py_truthy_str function_error then Ok (refresh_failed, db) else
          match transactions_count response_payload with
          | None => Ok (refresh_failed, db)
          | Some count =>
              let db' := record_refresh db now in   (* db.commit() *)
              match validate_optional_int count with
              | Some fetched => Ok (mkRefreshResponse true fetched (Some now), db')
              | None => Ok (refresh_failed, db')
              end
          end
      end
  end.
End Refresh.

(** [get_refresh_status] *)
Definition get_refresh_status (db : Db) : option Z :=
  match find_refresh_metadata db with
  | Some m => Some (rm_last_refreshed_at m)
  | None => None
  end.

(** An instance of [str_to_int] for the examples: the non-empty strings
    of ASCII decimal digits (pydantic also accepts a sign, surrounding
    whitespace and [_] separators, which the examples do not use). *)
Fixpoint digits_value (acc : Z) (s : string) : option Z :=
  match s with
  | EmptyString => Some acc
  | String c r => match digit_value c with
                  | Some v => digits_value (10 * acc + v) r
                  | None => None
                  end
  end.

Definition digit_string_int (s : string) : option Z :=
  match s with EmptyString => None | _ => digits_value 0 s end.

(** ** Recurring expenses *)

(** [RecurringExpenseCreate] (schemas.py): the field types are all that
    pydantic checks. *)
Record RecurringExpenseCreate := mkRecurringExpenseCreate {
  rec_name : string;
  rec_amount : Z;
  rec_frequency : string;
  rec_day_of_month : Z;
  rec_month_of_year : option Z;
  rec_start_date : string;
  rec_end_date : option string;
  rec_connelaide_category_id : option Z;
  rec_note : option string
}.

(** [RecurringExpenseUpdate] after [model_dump(exclude_unset=True)]. *)
Record RecurringExpenseUpdate := mkRecurringExpenseUpdate {
  reu_name : option (option string);
  reu_amount : option (option Z);
  reu_frequency : option (option string);
  reu_day_of_month : option (option Z);
  reu_month_of_year : option (option Z);
  reu_start_date : option (option string);
  reu_end_date : option (option string);
  reu_connelaide_category_id : option (option Z);
  reu_note : option (option string);
  reu_is_active : option (option bool)
}.

(** Modelled from the spec: the validation of RecurringExpense templates.
    The RecurringExpense model and its create/update endpoints are imported
    by [init_db.py] and [seed_data.py] but absent from [models.py] and
    [main.py].  Spec 4.4: "validates frequency in {monthly, yearly},
    day_of_month in [1,31], and that month_of_year is present and in
    [1,12] exactly when frequency = yearly". *)
Definition validate_recurring_expense (frequency : string) (day_of_month : Z)
    (month_of_year : option Z) : Result unit :=
  if negb (String.eqb frequency "monthly" || String.eqb frequency "yearly")
  then Err InvalidRecurrence
  else if negb ((1 <=? day_of_month) && (day_of_month <=? 31))
  then Err InvalidRecurrence
  else if String.eqb frequency "yearly"
  then match month_of_year with
       | Some m => if (1 <=? m) && (m <=? 12) then Ok tt else Err InvalidRecurrence
       | None => Err InvalidRecurrence
       end
  else match month_of_year with
       | Some _ => Err InvalidRecurrence
       | None => Ok tt
       end.

(** Modelled from the spec: RecurringExpense create (validate, then
    insert; [is_active] defaults to true). *)
Definition create_recurring_expense (data : RecurringExpenseCreate) (db : Db)
  : Result (RecurringExpense * Db) :=
  _ <- validate_recurring_expense (rec_frequency data) (rec_day_of_month data)
                                  (rec_month_of_year data) ;;
  let r := mkRecurringExpense (recurring_seq db) (rec_name data) (rec_amount data)
             (rec_frequency data) (rec_day_of_month data) (rec_month_of_year data)
             (rec_start_date data) (rec_end_date data) (rec_connelaide_category_id data)
             (rec_note data) true in
  Ok (r, set_recurring_expenses db (recurring_expenses db ++ [r]) (recurring_seq db + 1)).

(** A sent value for a required column: null is rejected. *)
Definition merge_required {A} (sent : option (option A)) (old : A) : Result A :=
  match sent with
  | None => Ok old
  | Some (Some v) => Ok v
  | Some None => Err InvalidRecurrence
  end.

Definition merge_optional {A} (sent : option (option A)) (old : option A) : option A :=
  match sent with None => old | Some v => v end.

(** Modelled from the spec: RecurringExpense update (partial fields, the
    resulting template validated before it is stored). *)
Definition update_recurring_expense (recurring_id : Z) (u : RecurringExpenseUpdate) (db : Db)
  : Result (RecurringExpense * Db) :=
  match find (fun r => re_id r =? recurring_id) (recurring_expenses db) with
  | None => Err NotFound
  | Some r =>
      name <- merge_required (reu_name u) (re_name r) ;;
      amount <- merge_required (reu_amount u) (re_amount r) ;;
      frequency <- merge_required (reu_frequency u) (re_frequency r) ;;
      dom <- merge_required (reu_day_of_month u) (re_day_of_month r) ;;
      let moy := merge_optional (reu_month_of_year u) (re_month_of_year r) in
      start <- merge_required (reu_start_date u) (re_start_date r) ;;
      active <- merge_required (reu_is_active u) (re_is_active r) ;;
      _ <- validate_recurring_expense frequency dom moy ;;
      let r' := mkRecurringExpense (re_id r) name amount frequency dom moy start
                  (merge_optional (reu_end_date u) (re_end_date r))
                  (merge_optional (reu_connelaide_category_id u) (re_connelaide_category_id r))
                  (merge_optional (reu_note u) (re_note r)) active in
      Ok (r', set_recurring_expenses db
                (map (fun x => if re_id x =? recurring_id then r' else x) (recurring_expenses db))
                (recurring_seq db))
  end.

(** ** Concrete stores used by the examples *)

(** Midnight UTC of a civil date, in seconds since the epoch. *)
Definition utc_midnight (y m d : Z) : Z := days_from_civil y m d * seconds_per_day.

Definition empty_db : Db := mkDb [] [] [] [] [] [] 1 1 1.

(** Category 1 used by one transaction and one projected expense. *)
Definition db_shared_category : Db :=
  mkDb [mkCategory 1 "Groceries" (Some 400)]
       [mkTransaction 1 "txn-a" "2024-03-02" "Kroger" (-62) (Some 1) None]
       [mkProjectedExpense 1 "Grocery Restock" 100 "2024-03-05" (Some 1) None (Some false) None]
       [] [] [] 2 1 1.

(** A projected expense merged into transaction 1, dated in March 2024. *)
Definition merged_expense : ProjectedExpense :=
  mkProjectedExpense 1 "Car Insurance" 120 "2024-03-05" None None (Some false) (Some 1).

Definition db_merged : Db :=
  mkDb [] [mkTransaction 1 "txn-a" "2024-03-05" "Insurer" (-120) None None]
       [merged_expense] [] [] [] 1 1 1.

(** Two stored pay periods whose dates conflict (as a store written
    before the overlap check existed could hold). *)
Definition db_conflicting_periods : Db :=
  mkDb [] [] []
       [mkPayPeriod 1 "2024-01-01" "2024-01-15" (Some 2000);
        mkPayPeriod 2 "2024-01-10" "2024-01-20" None] [] [] 1 3 1.

(** The string of [k] copies of the character [c]. *)
Fixpoint repeat_char (k : nat) (c : ascii) : string :=
  match k with O => EmptyString | S k' => String c (repeat_char k' c) end.

(** A category with this exact name is stored. *)
Definition category_name_taken (db : Db) (n : string) : bool :=
  existsb (fun c => String.eqb (cat_name c) n) (categories db).

(** Zero-padded [YYYY-MM-DD]: four digits, '-', two digits, '-', two digits. *)
Definition is_canonical_date (s : string) : bool :=
  match list_ascii_of_string s with
  | [y1; y2; y3; y4; h1; m1; m2; h2; d1; d2] =>
      forallb (fun c => is_set (digit_value c)) [y1; y2; y3; y4; m1; m2; d1; d2]
      && Ascii.eqb h1 "-" && Ascii.eqb h2 "-"
  | _ => false
  end.

(** A calendar date of the years 1 to 9999. *)
Definition calendar_date (ymd : Z * Z * Z) : Prop :=
  let '(y, m, d) := ymd in 1 <= y <= 9999 /\ 1 <= m <= 12 /\ 1 <= d <= days_in_month y m.

(** The SQL predicate of [check_pay_period_overlap] on a stored row [q]
    against the range [s .. e]. *)
Definition range_intersects (q : PayPeriod) (s e : string) : bool :=
  str_leb (pp_start_date q) e && str_leb s (pp_end_date q).

(** [A.start_date <= B.end_date and B.start_date <= A.end_date], with the
    store's comparison of the date strings. *)
Definition periods_intersect (a b : PayPeriod) : Prop :=
  str_leb (pp_start_date a) (pp_end_date b) = true /\
  str_leb (pp_start_date b) (pp_end_date a) = true.

Definition no_overlap (ps : list PayPeriod) : Prop :=
  forall a b, In a ps -> In b ps -> pp_id a <> pp_id b -> ~ periods_intersect a b.

(** The store's pay periods: pairwise disjoint, with distinct primary keys
    below the next SERIAL value. *)
Definition pay_periods_ok (db : Db) : Prop :=
  no_overlap (pay_periods db) /\ NoDup (map pp_id (pay_periods db)) /\
  Forall (fun p => pp_id p < pay_period_seq db) (pay_periods db).

(** The pay-period requests of the API. *)
Inductive PayPeriodRequest :=
| CreatePayPeriod (data : PayPeriodCreate)
| UpdatePayPeriod (pay_period_id : Z) (updates : PayPeriodUpdate)
| DeletePayPeriod (pay_period_id : Z).

Definition pay_period_request (req : PayPeriodRequest) (db : Db) : Db :=
  match req with
  | CreatePayPeriod data => snd (run (create_pay_period data) db)
  | UpdatePayPeriod i u => snd (run (update_pay_period i u) db)
  | DeletePayPeriod i => snd (run (delete_pay_period i) db)
  end.

(** One stored pay period, 2024-01-01 .. 2024-01-15. *)
Definition db_first_half_january : Db :=
  mkDb [] [] [] [mkPayPeriod 1 "2024-01-01" "2024-01-15" (Some 2000)] [] [] 1 2 1.

(** The constraint of C4 on a template, in the claim's words. *)
Definition recurrence_valid (frequency : string) (day_of_month : Z)
    (month_of_year : option Z) : Prop :=
  (frequency = "monthly" \/ frequency = "yearly") /\
  1 <= day_of_month <= 31 /\
  (frequency = "yearly" -> exists m, month_of_year = Some m /\ 1 <= m <= 12) /\
  (frequency <> "yearly" -> month_of_year = None).

Definition recurring_store_ok (db : Db) : Prop :=
  Forall (fun r => recurrence_valid (re_frequency r) (re_day_of_month r) (re_month_of_year r))
         (recurring_expenses db).

(** ** Sorting as [ORDER BY ... DESC] does it

    [insert_by before x l] puts [x] in front of the first row it sorts
    before; rows the order does not separate keep table order (SQL leaves
    their order open; the properties below do not depend on it). *)
Fixpoint insert_by {A} (before : A -> A -> bool) (x : A) (l : list A) : list A :=
  match l with
  | [] => [x]
  | y :: r => if before x y then x :: l else y :: insert_by before x r
  end.

Definition sort_by {A} (before : A -> A -> bool) (l : list A) : list A :=
  fold_right (insert_by before) [] l.

(** ** Transaction endpoints

    The [Transaction] record keeps the columns the handlers read.
    [update_transaction] also writes [edited_amount] and
    [impacts_checking_balance], which no record field holds: the model is
    exact on the other columns and on each request's outcome. *)

(** [ORDER BY Transaction.date.desc(), Transaction.transaction_id.desc()]:
    [x] sorts before [y]. *)
Definition txn_sorts_before (x y : Transaction) : bool :=
  str_ltb (txn_date y) (txn_date x)
  || (String.eqb (txn_date x) (txn_date y)
      && str_ltb (txn_transaction_id y) (txn_transaction_id x)).

(** [get_transactions]: the rows dated in [start_date .. end_date]
    (string comparison, inclusive).  The response's [connelaide_category],
    filled from the joined category, is not modelled. *)
Definition get_transactions (query : list (string * string)) (db : Db)
  : Result (list Transaction) :=
  match query_get query "start_date", query_get query "end_date" with
  | Some start_date, Some end_date =>
      Ok (sort_by txn_sorts_before
            (filter (fun t => str_leb start_date (txn_date t) && str_leb (txn_date t) end_date)
                    (transactions db)))
  | _, _ => Err MissingQueryParam
  end.

(** [TransactionUpdateRequest] after [model_dump(exclude_unset=True)]. *)
Record TransactionUpdateRequest := mkTransactionUpdateRequest {
  tur_connelaide_category_id : option (option Z);
  tur_edited_amount : option (option Z);
  tur_note : option (option string);
  tur_impacts_checking_balance : option (option string)
}.

Definition find_transaction (db : Db) (transaction_id : Z) : option Transaction :=
  find (fun t => txn_id t =? transaction_id) (transactions db).

(** [if ... is not None]: the category must exist. *)
Definition check_category (db : Db) (category_id : option Z) : Result unit :=
  match category_id with
  | Some i => match find_category db i with Some _ => Ok tt | None => Err InvalidCategory end
  | None => Ok tt
  end.

(** [update_transaction] *)
Definition update_transaction (transaction_id : Z) (updates : TransactionUpdateRequest) (db : Db)
  : Result (Transaction * Db) :=
  match find_transaction db transaction_id with
  | None => Err NotFound
  | Some t =>
      _ <- (match tur_connelaide_category_id updates with
            | Some c => check_category db c
            | None => Ok tt
            end) ;;
      (* setattr of every field sent; the commit checks the column lengths *)
      note <- (match tur_note updates with
               | Some v => pg_varchar_opt 700 v
               | None => Ok (txn_note t)
               end) ;;
      _ <- (match tur_impacts_checking_balance updates with
            | Some v => pg_varchar_opt 20 v
            | None => Ok None
            end) ;;
      let cat := match tur_connelaide_category_id updates with
                 | Some v => v | None => txn_connelaide_category_id t end in
      let t' := mkTransaction (txn_id t) (txn_transaction_id t) (txn_date t) (txn_name t)
                  (txn_amount t) cat note in
      Ok (t', set_transactions db
                (map (fun x => if txn_id x =? transaction_id then t' else x) (transactions db)))
  end.

(** ** Category and pay period lookups *)

(** [get_category] *)
Definition get_category (category_id : Z) (db : Db) : Result ConnalaideCategory :=
  match find_category db category_id with Some c => Ok c | None => Err NotFound end.

(** [get_pay_period] *)
Definition get_pay_period (pay_period_id : Z) (db : Db) : Result PayPeriod :=
  match find_pay_period db pay_period_id with Some p => Ok p | None => Err NotFound end.

(** [get_pay_periods]: [ORDER BY start_date DESC]. *)
Definition get_pay_periods (db : Db) : list PayPeriod :=
  sort_by (fun x y => str_ltb (pp_start_date y) (pp_start_date x)) (pay_periods db).

(** ** Projected expense endpoints

    [projected_expenses.id] is a SERIAL column whose sequence the store
    record does not hold: [create_projected_expense] takes the value
    [nextval] returns as [new_id]. *)

Definition set_projected_expenses (db : Db) (es : list ProjectedExpense) : Db :=
  mkDb (categories db) (transactions db) es (pay_periods db)
       (refresh_metadata db) (recurring_expenses db) (category_seq db)
       (pay_period_seq db) (recurring_seq db).

(** [ProjectedExpenseCreate] *)
Record ProjectedExpenseCreate := mkProjectedExpenseCreate {
  pec_name : string;
  pec_amount : Z;
  pec_date : string;
  pec_connelaide_category_id : option Z;
  pec_note : option string
}.

(** [create_projected_expense]: the date is stored as sent; the response
    carries the category's name. *)
Definition create_projected_expense (new_id : Z) (expense_data : ProjectedExpenseCreate) (db : Db)
  : Result (ProjectedExpense * option string * Db) :=
  _ <- check_category db (pec_connelaide_category_id expense_data) ;;
  name <- pg_varchar 500 (pec_name expense_data) ;;
  date <- pg_varchar 50 (pec_date expense_data) ;;
  note <- pg_varchar_opt 700 (pec_note expense_data) ;;
  (* is_struck_out: Column(Boolean, default=False) *)
  let expense := mkProjectedExpense new_id name (pec_amount expense_data) date
                   (pec_connelaide_category_id expense_data) note (Some false) None in
  Ok ((expense, category_name_of db (pec_connelaide_category_id expense_data)),
      set_projected_expenses db (projected_expenses db ++ [expense])).

(** [ProjectedExpenseUpdate] after [model_dump(exclude_unset=True)]:
    [None] = field not sent, [Some None] = sent as null. *)
Record ProjectedExpenseUpdate := mkProjectedExpenseUpdate {
  peu_name : option (option string);
  peu_amount : option (option Z);
  peu_date : option (option string);
  peu_connelaide_category_id : option (option Z);
  peu_note : option (option string);
  peu_is_struck_out : option (option bool);
  peu_merged_transaction_id : option (option Z)
}.

(** setattr of a NOT NULL column: null fails at commit. *)
Definition set_required {A} (sent : option (option A)) (old : A) : Result A :=
  match sent with
  | None => Ok old
  | Some (Some v) => Ok v
  | Some None => Err IntegrityError
  end.

Definition find_projected_expense (db : Db) (expense_id : Z) : option ProjectedExpense :=
  find (fun e => pe_id e =? expense_id) (projected_expenses db).

(** [update_projected_expense] *)
Definition update_projected_expense (expense_id : Z) (updates : ProjectedExpenseUpdate) (db : Db)
  : Result (ProjectedExpense * option string * Db) :=
  match find_projected_expense db expense_id with
  | None => Err NotFound
  | Some expense =>
      _ <- (match peu_connelaide_category_id updates with
            | Some c => check_category db c
            | None => Ok tt
            end) ;;
      _ <- (match peu_merged_transaction_id updates with
            | Some (Some i) =>
                match find_transaction db i with
                | Some _ => Ok tt
                | None => Err InvalidTransaction
                end
            | _ => Ok tt
            end) ;;
      name <- set_required (peu_name updates) (pe_name expense) ;;
      name <- (if is_set (peu_name updates) then pg_varchar 500 name else Ok name) ;;
      amount <- set_required (peu_amount updates) (pe_amount expense) ;;
      date <- set_required (peu_date updates) (pe_date expense) ;;
      date <- (if is_set (peu_date updates) then pg_varchar 50 date else Ok date) ;;
      note <- (match peu_note updates with
               | Some v => pg_varchar_opt 700 v
               | None => Ok (pe_note expense)
               end) ;;
      let cat := match peu_connelaide_category_id updates with
                 | Some v => v | None => pe_connelaide_category_id expense end in
      (* is_struck_out is nullable: a null is stored *)
      let struck := match peu_is_struck_out updates with
                    | Some v => v | None => pe_is_struck_out expense end in
      let merged := match peu_merged_transaction_id updates with
                    | Some v => v | None => pe_merged_transaction_id expense end in
      let expense' := mkProjectedExpense (pe_id expense) name amount date cat note struck merged in
      Ok ((expense', category_name_of db cat),
          set_projected_expenses db
            (map (fun e => if pe_id e =? expense_id then expense' else e) (projected_expenses db)))
  end.

(** [delete_projected_expense]: no foreign key references the table. *)
Definition delete_projected_expense (expense_id : Z) (db : Db) : Result (unit * Db) :=
  match find_projected_expense db expense_id with
  | None => Err NotFound
  | Some _ =>
      Ok (tt, set_projected_expenses db
                (filter (fun e => negb (pe_id e =? expense_id)) (projected_expenses db)))
  end.

(** ** Store invariants used by the extra properties *)

(** Category ids are distinct and below the SERIAL value; names are
    distinct (the UNIQUE constraint) and fit the VARCHAR(100) column. *)
Definition categories_ok (db : Db) : Prop :=
  NoDup (map cat_id (categories db)) /\ NoDup (map cat_name (categories db)) /\
  Forall (fun c => cat_id c < category_seq db) (categories db) /\
  Forall (fun c => (String.length (cat_name c) <= 100)%nat) (categories db).

(** Every category a transaction or projected expense names exists (the
    foreign keys). *)
Definition category_refs_ok (db : Db) : Prop :=
  Forall (fun t => forall i, txn_connelaide_category_id t = Some i -> find_category db i <> None)
         (transactions db) /\
  Forall (fun e => forall i, pe_connelaide_category_id e = Some i -> find_category db i <> None)
         (projected_expenses db).

(** Every transaction a projected expense is merged into exists (the
    foreign key on [merged_transaction_id]). *)
Definition merged_refs_ok (db : Db) : Prop :=
  Forall (fun e => forall t, pe_merged_transaction_id e = Some t -> find_transaction db t <> None)
         (projected_expenses db).

Definition refs_ok (db : Db) : Prop := category_refs_ok db /\ merged_refs_ok db.

(** Ordered by [key], descending. *)
Definition sorted_desc {A} (key : A -> string) (l : list A) : Prop :=
  Sorted (fun x y => str_leb (key y) (key x) = true) l.

(** ** General lemmas *)

Lemma bind_ok {A B} (c : Result A) (k : A -> Result B) (v : B) :
  bind c k = Ok v -> exists a, c = Ok a /\ k a = Ok v.
Proof. destruct c as [a|err]; simpl; [eauto|discriminate]. Qed.

Ltac peel_bind H :=
  let a := fresh "a" in let Ha := fresh "Ha" in
  cbv zeta in H; apply bind_ok in H; destruct H as [a [Ha H]].

Lemma find_none_existsb {A} (f : A -> bool) (l : list A) :
  existsb f l = false -> find f l = None.
Proof.
  induction l as [|x l IH]; simpl; [reflexivity|].
  destruct (f x); [discriminate|exact IH].
Qed.

Lemma existsb_app_false {A} (f : A -> bool) (l1 l2 : list A) :
  existsb f l1 = false -> existsb f l2 = false -> existsb f (l1 ++ l2) = false.
Proof. intros H1 H2. rewrite existsb_app, H1, H2. reflexivity. Qed.

Lemma string_eqb_sym (a b : string) : String.eqb a b = String.eqb b a.
Proof.
  destruct (String.eqb_spec a b), (String.eqb_spec b a); congruence.
Qed.

(** ** Refresh window (C5) *)

Lemma div_sub_days (t n : Z) :
  (t - timedelta_days n) / seconds_per_day = t / seconds_per_day - n.
Proof.
  unfold timedelta_days, seconds_per_day.
  replace (t - n * 86400) with (t + (- n) * 86400) by lia.
  rewrite Z.div_add by lia. lia.
Qed.

(** C5 (the spec's first example): with [last_refreshed_at = 2024-03-10T00:00:00Z]
    and [now = 2024-03-20T00:00:00Z] the window is not
    [2024-02-24 .. 2024-03-20]: 2024 is a leap year, so 14 days before
    March 10 is February 25. *)
Lemma refresh_window_spec_example_wrong :
  refresh_window (Some (mkRefreshMetadata refresh_key (utc_midnight 2024 3 10)))
                 (utc_midnight 2024 3 20) <> ("2024-02-24", "2024-03-20").
Proof. vm_compute. intro H. inversion H. Qed.

(** C5 (amended): the window ends on the calendar day of [now] and starts
    14 calendar days before the day of the last refresh, or 30 days before
    the day of [now] when there was no refresh; for the spec's instants this
    is [2024-02-25 .. 2024-03-20] and [2024-02-19 .. 2024-03-20]. *)
Theorem refresh_window_days :
  (forall (metadata : option RefreshMetadata) (now : Z),
     refresh_window metadata now =
       (format_ymd (civil_from_days
          (match metadata with
           | Some m => rm_last_refreshed_at m / seconds_per_day - 14
           | None => now / seconds_per_day - 30
           end)),
        format_ymd (civil_from_days (now / seconds_per_day)))) /\
  refresh_window (Some (mkRefreshMetadata refresh_key (utc_midnight 2024 3 10)))
                 (utc_midnight 2024 3 20) = ("2024-02-25", "2024-03-20") /\
  refresh_window None (utc_midnight 2024 3 20) = ("2024-02-19", "2024-03-20").
Proof.
  split; [|split; vm_compute; reflexivity].
  intros [m|] now; unfold refresh_window, strftime_ymd; rewrite div_sub_days; reflexivity.
Qed.

Lemma find_some_existsb {A} (f : A -> bool) (l : list A) :
  existsb f l = true -> exists x, find f l = Some x.
Proof.
  induction l as [|x l IH]; simpl; [discriminate|].
  destruct (f x); simpl; [eauto|exact IH].
Qed.

Lemma find_app_none {A} (f : A -> bool) (l1 l2 : list A) :
  find f l1 = None -> find f (l1 ++ l2) = find f l2.
Proof.
  induction l1 as [|x l1 IH]; simpl; [reflexivity|].
  destruct (f x); [discriminate|exact IH].
Qed.

Lemma Forall_existsb_false {A} (f : A -> bool) (l : list A) :
  Forall (fun x => f x = false) l -> existsb f l = false.
Proof. induction 1 as [|x l Hx _ IH]; simpl; [reflexivity|]. rewrite Hx. exact IH. Qed.

(** ** Category registry (C7, C9, C1) *)

Lemma substring_prefix_length (n : nat) (s : string) :
  (n <= String.length s)%nat -> String.length (substring 0 n s) = n.
Proof.
  revert n; induction s as [|c s IH]; intros [|n] H; cbn in *; try lia.
  f_equal. apply IH. lia.
Qed.

Lemma pg_varchar_short (n : nat) (s : string) :
  (String.length s <= n)%nat -> pg_varchar n s = Ok s.
Proof. intros H. unfold pg_varchar. apply Nat.leb_le in H. rewrite H. reflexivity. Qed.

Lemma pg_varchar_opt_short (n : nat) (o : option string) :
  (forall v, o = Some v -> (String.length v <= n)%nat) -> pg_varchar_opt n o = Ok o.
Proof.
  destruct o as [v|]; simpl; [|reflexivity]. intros H.
  rewrite pg_varchar_short by (apply H; reflexivity). reflexivity.
Qed.

(** What a VARCHAR(n) column stores has at most n characters. *)
Lemma pg_varchar_length (n : nat) (s v : string) :
  pg_varchar n s = Ok v -> (String.length v <= n)%nat.
Proof.
  unfold pg_varchar. destruct (Nat.leb_spec (String.length s) n) as [H|H].
  - intros E. injection E as <-. exact H.
  - destruct (all_spaces _); [|discriminate]. intros E. injection E as <-.
    rewrite substring_prefix_length by lia. lia.
Qed.

Lemma create_category_fresh (db : Db) (n : string) (tb : option Z) :
  (String.length n <= 100)%nat -> category_name_taken db n = false ->
  create_category (mkCategoryCreate n tb) db
    = Ok (mkCategory (category_seq db) n None,
          set_categories db (categories db ++ [mkCategory (category_seq db) n None])
                         (category_seq db + 1)).
Proof.
  unfold category_name_taken. intros Hlen Hfree. unfold create_category. cbn [ccc_name].
  rewrite (find_none_existsb _ _ Hfree), (pg_varchar_short 100 n Hlen). cbn [bind].
  unfold db_insert_category. cbn [cat_name]. rewrite Hfree. reflexivity.
Qed.

Lemma create_category_taken (db : Db) (n : string) (tb : option Z) :
  category_name_taken db n = true -> create_category (mkCategoryCreate n tb) db = Err DuplicateName.
Proof.
  unfold category_name_taken. intros H. unfold create_category. cbn [ccc_name].
  destruct (find_some_existsb _ _ H) as [c Hc]. rewrite Hc. reflexivity.
Qed.




(** C1: deleting a category still referenced by a projected expense does
    not null that reference: the DELETE violates the projected_expenses
    foreign key, the request fails and the whole session is rolled back,
    so the category stays listed and no reference is cleared. *)
Theorem delete_category_blocked_by_projected_expense (db : Db) (category_id : Z)
  (e : ProjectedExpense)
  (Hcat : find_category db category_id <> None)
  (He : In e (projected_expenses db))
  (Href : pe_connelaide_category_id e = Some category_id) :
  run (delete_category category_id) db = (Err IntegrityError, db).
Proof.
  unfold run, delete_category.
  destruct (find_category db category_id) as [c|]; [|contradiction].
  unfold db_delete_category. simpl.
  replace (existsb (fun p => nullable_eqb (pe_connelaide_category_id p) category_id)
                   (projected_expenses db)) with true.
  - rewrite orb_true_r. reflexivity.
  - symmetry. apply existsb_exists. exists e. split; [exact He|].
    rewrite Href. simpl. apply Z.eqb_refl.
Qed.

(** ** Projected expense listing (C2) *)

Lemma In_insert_date_desc (x y : ProjectedExpense) (l : list ProjectedExpense) :
  In y (insert_date_desc x l) <-> y = x \/ In y l.
Proof.
  induction l as [|z l IH]; simpl.
  - intuition congruence.
  - destruct (str_ltb (pe_date z) (pe_date x)); simpl; [|rewrite IH]; intuition congruence.
Qed.

Lemma In_sort_date_desc (y : ProjectedExpense) (l : list ProjectedExpense) :
  In y (sort_date_desc l) <-> In y l.
Proof.
  induction l as [|z l IH]; simpl; [tauto|].
  rewrite In_insert_date_desc, IH. intuition congruence.
Qed.

Lemma map_fst_pair {A B} (f : A -> B) (l : list A) :
  map fst (map (fun x => (x, f x)) l) = l.
Proof. induction l as [|x l IH]; simpl; [reflexivity|]. rewrite IH. reflexivity. Qed.

Lemma In_listing_filter (s t : string) (l : list ProjectedExpense) (e : ProjectedExpense) :
  In e (filter (fun e => str_leb s (pe_date e) && str_leb (pe_date e) t
                         && negb (is_set (pe_merged_transaction_id e))) l) <->
  In e l /\ str_leb s (pe_date e) = true /\ str_leb (pe_date e) t = true /\
  pe_merged_transaction_id e = None.
Proof.
  rewrite filter_In.
  destruct (str_leb s (pe_date e)), (str_leb (pe_date e) t), (pe_merged_transaction_id e);
    simpl; intuition congruence.
Qed.

(** The listing of a range with both parameters: the selected rows, newest
    first, unless one of them fails the response validation. *)
Lemma get_projected_expenses_eq (query : list (string * string)) (db : Db) (s t : string) :
  query_get query "start_date" = Some s -> query_get query "end_date" = Some t ->
  let rows := map (fun e => (e, category_name_of db (pe_connelaide_category_id e)))
                  (sort_date_desc
                     (filter (fun e => str_leb s (pe_date e) && str_leb (pe_date e) t
                                       && negb (is_set (pe_merged_transaction_id e)))
                             (projected_expenses db))) in
  get_projected_expenses query db
    = if forallb projected_expense_valid rows then Ok rows else Err ResponseValidation.
Proof. intros Hs Ht. unfold get_projected_expenses. rewrite Hs, Ht. reflexivity. Qed.

Lemma rows_valid_iff (db : Db) (l : list ProjectedExpense) :
  forallb projected_expense_valid
    (map (fun e => (e, category_name_of db (pe_connelaide_category_id e))) (sort_date_desc l))
    = true <-> (forall e, In e l -> pe_is_struck_out e <> None).
Proof.
  rewrite forallb_forall. split.
  - intros H e He. specialize (H (e, category_name_of db (pe_connelaide_category_id e))).
    unfold projected_expense_valid in H. cbn [fst] in H.
    destruct (pe_is_struck_out e); [discriminate|].
    exfalso. assert (false = true); [|discriminate].
    apply H, (in_map (fun e => (e, category_name_of db (pe_connelaide_category_id e)))).
    apply In_sort_date_desc, He.
  - intros H r Hr. apply in_map_iff in Hr as [e [<- He]]. rewrite In_sort_date_desc in He.
    unfold projected_expense_valid. cbn [fst].
    specialize (H e He). destruct (pe_is_struck_out e); [reflexivity|contradiction].
Qed.

(** The listing of a range succeeds exactly when no selected row has a
    NULL is_struck_out. *)
Lemma listing_ok_iff (query : list (string * string)) (db : Db) (s t : string) :
  query_get query "start_date" = Some s -> query_get query "end_date" = Some t ->
  (exists rows, get_projected_expenses query db = Ok rows) <->
  (forall e, In e (filter (fun e => str_leb s (pe_date e) && str_leb (pe_date e) t
                                    && negb (is_set (pe_merged_transaction_id e)))
                          (projected_expenses db)) ->
             pe_is_struck_out e <> None).
Proof.
  intros Hs Ht. rewrite (get_projected_expenses_eq query db s t Hs Ht). cbv zeta.
  split; intros H.
  - apply (rows_valid_iff db). destruct H as [r H].
    destruct (forallb _ _); [reflexivity|discriminate].
  - apply (rows_valid_iff db) in H. rewrite H. eauto.
Qed.

Lemma listing_rows (query : list (string * string)) (db : Db) (s t : string)
      (rows : list (ProjectedExpense * option string)) :
  query_get query "start_date" = Some s -> query_get query "end_date" = Some t ->
  get_projected_expenses query db = Ok rows ->
  forall e, In e (map fst rows) <->
            In e (filter (fun e => str_leb s (pe_date e) && str_leb (pe_date e) t
                                   && negb (is_set (pe_merged_transaction_id e)))
                         (projected_expenses db)).
Proof.
  intros Hs Ht. rewrite (get_projected_expenses_eq query db s t Hs Ht). cbv zeta.
  destruct (forallb _ _); [|discriminate]. intros H. injection H as <-. intros e.
  rewrite map_fst_pair, In_sort_date_desc. reflexivity.
Qed.



(** ** Non-canonical pay-period dates (C10) *)

(** C10: ["2024-1-5"] is not zero-padded, yet [strptime] accepts it, so
    pay-period validation passes and the string is stored as sent.  The
    overlap check then compares it as a raw string: ["2024-1-5"] sorts
    after ["2024-01-07"] although 2024-01-05 comes before 2024-01-07, and
    a new period 2024-01-06 .. 2024-01-07, inside the stored
    2024-1-5 .. 2024-1-9, is created without an overlap conflict. *)
Theorem noncanonical_dates_compared_as_strings :
  let db1 := snd (run (create_pay_period (mkPayPeriodCreate "2024-1-5" "2024-1-9" None))
                      empty_db) in
  is_canonical_date "2024-1-5" = false /\
  strptime_ymd "2024-1-5" = Some (2024, 1, 5) /\
  strptime_ymd "2024-1-9" = Some (2024, 1, 9) /\
  validate_pay_period_dates (Some "2024-1-5") (Some "2024-1-9") = Ok tt /\
  pay_periods db1 = [mkPayPeriod 1 "2024-1-5" "2024-1-9" None] /\
  strptime_ymd "2024-01-07" = Some (2024, 1, 7) /\
  date_ltb (2024, 1, 5) (2024, 1, 7) = true /\
  str_leb "2024-1-5" "2024-01-07" = false /\
  fst (run (create_pay_period (mkPayPeriodCreate "2024-01-06" "2024-01-07" None)) db1)
    = Ok (mkPayPeriod 2 "2024-01-06" "2024-01-07" None).
Proof. vm_compute. repeat split. Qed.

(** ** Refresh metadata (C6) *)

Lemma find_refresh_marked (l : list RefreshMetadata) (now : Z) (m : RefreshMetadata) :
  find (fun m => String.eqb (rm_key m) refresh_key) l = Some m ->
  find (fun m => String.eqb (rm_key m) refresh_key)
    (map (fun m => if String.eqb (rm_key m) refresh_key
                   then mkRefreshMetadata (rm_key m) now else m) l)
  = Some (mkRefreshMetadata refresh_key now).
Proof.
  induction l as [|x l IH]; simpl; [discriminate|].
  destruct (String.eqb (rm_key x) refresh_key) eqn:Ek; simpl.
  - rewrite Ek. apply String.eqb_eq in Ek. rewrite Ek. reflexivity.
  - rewrite Ek. exact IH.
Qed.

Lemma record_refresh_found (db : Db) (now : Z) :
  find_refresh_metadata (record_refresh db now) = Some (mkRefreshMetadata refresh_key now).
Proof.
  unfold record_refresh. destruct (find_refresh_metadata db) as [m|] eqn:E.
  - unfold find_refresh_metadata in *. simpl. eapply find_refresh_marked. exact E.
  - unfold find_refresh_metadata in *. simpl. rewrite find_app_none by exact E.
    simpl. rewrite ?String.eqb_refl. reflexivity.
Qed.

Lemma record_refresh_keys (db : Db) (now : Z) :
  find_refresh_metadata db <> None ->
  map rm_key (refresh_metadata (record_refresh db now)) = map rm_key (refresh_metadata db).
Proof.
  intros H. unfold record_refresh. destruct (find_refresh_metadata db); [|contradiction].
  simpl. rewrite map_map. apply map_ext. intros m.
  destruct (String.eqb (rm_key m) refresh_key); reflexivity.
Qed.



(** ** Pay periods (C8, C3) *)

Lemma filter_nil_false {A} (f : A -> bool) (l : list A) :
  filter f l = [] -> forall x, In x l -> f x = false.
Proof.
  induction l as [|y l IH]; simpl; intros H x Hx; [contradiction|].
  destruct (f y) eqn:Ey; [discriminate|].
  destruct Hx as [<-|Hx]; [exact Ey|exact (IH H x Hx)].
Qed.

Lemma check_overlap_ok (db : Db) (s e : string) (ex : option Z) :
  check_pay_period_overlap db (Some s) (Some e) ex = Ok tt ->
  forall q, In q (pay_periods db) -> (forall i, ex = Some i -> pp_id q <> i) ->
  range_intersects q s e = false.
Proof.
  intros H q Hq Hex.
  destruct (range_intersects q s e) eqn:Hr; [exfalso|reflexivity].
  unfold check_pay_period_overlap in H.
  set (q1 := filter _ (pay_periods db)) in H.
  assert (Hin : In q q1).
  { apply filter_In. split; [exact Hq|]. exact Hr. }
  set (q2 := match ex with
             | Some i => if i =? 0 then q1 else filter (fun p => negb (pp_id p =? i)) q1
             | None => q1
             end) in *.
  assert (Hin2 : In q q2).
  { subst q2. destruct ex as [i|]; [|exact Hin]. destruct (i =? 0); [exact Hin|].
    apply filter_In. split; [exact Hin|]. apply negb_true_iff, Z.eqb_neq. exact (Hex i eq_refl). }
  destruct q2; [contradiction|discriminate].
Qed.

Lemma check_overlap_err (db : Db) (s e : string) (ex : option Z) (q : PayPeriod) :
  In q (pay_periods db) -> (forall i, ex = Some i -> pp_id q <> i) ->
  range_intersects q s e = true ->
  exists s' e', check_pay_period_overlap db (Some s) (Some e) ex = Err (OverlapConflict s' e').
Proof.
  intros Hq Hex Hr.
  destruct (check_pay_period_overlap db (Some s) (Some e) ex) as [[]|err] eqn:Hc.
  - rewrite (check_overlap_ok db s e ex Hc q Hq Hex) in Hr. discriminate.
  - unfold check_pay_period_overlap in Hc.
    destruct (match ex with
              | Some i => if i =? 0 then _ else _
              | None => _ end) as [|x r]; [discriminate|].
    injection Hc as <-. eauto.
Qed.

Lemma set_not_null_spec (sent : option (option string)) (old v : string) :
  set_not_null sent old = Ok v ->
  match sent with Some x => x | None => Some old end = Some v.
Proof. destruct sent as [[x|]|]; simpl; congruence. Qed.

Lemma create_pay_period_ok (data : PayPeriodCreate) (db : Db) (p : PayPeriod) (db' : Db) :
  create_pay_period data db = Ok (p, db') ->
  p = mkPayPeriod (pay_period_seq db) (ppc_start_date data) (ppc_end_date data)
                  (ppc_checking_budget data) /\
  db' = set_pay_periods db (pay_periods db ++ [p]) (pay_period_seq db + 1) /\
  forall q, In q (pay_periods db) ->
    range_intersects q (ppc_start_date data) (ppc_end_date data) = false.
Proof.
  unfold create_pay_period. intros H.
  apply bind_ok in H as [[] [_ H]]. apply bind_ok in H as [[] [Hc H]].
  injection H as <- <-. split; [reflexivity|]. split; [reflexivity|].
  intros q Hq. apply (check_overlap_ok db _ _ None Hc q Hq). discriminate.
Qed.

Lemma update_pay_period_ok (db : Db) (i : Z) (u : PayPeriodUpdate) (p' : PayPeriod) (db' : Db) :
  no_overlap (pay_periods db) ->
  update_pay_period i u db = Ok (p', db') ->
  exists p, In p (pay_periods db) /\ pp_id p = i /\ pp_id p' = i /\
    db' = replace_pay_period db p' /\
    forall q, In q (pay_periods db) -> pp_id q <> i -> ~ periods_intersect p' q.
Proof.
  intros Hno H. unfold update_pay_period in H.
  destruct (find_pay_period db i) as [p|] eqn:Hf; [|discriminate].
  unfold find_pay_period in Hf. apply find_some in Hf as [Hp Hpi]. apply Z.eqb_eq in Hpi.
  cbv zeta in H.
  apply bind_ok in H as [[] [Hcond H]].
  apply bind_ok in H as [s [Hs H]]. apply bind_ok in H as [e [He H]].
  injection H as <- <-.
  exists p. split; [exact Hp|]. split; [exact Hpi|]. split; [exact Hpi|]. split; [reflexivity|].
  intros q Hq Hqi [H1 H2]. simpl in H1, H2.
  destruct (is_set (ppu_start_date u) || is_set (ppu_end_date u)) eqn:Hset.
  - apply bind_ok in Hcond as [[] [_ Hc]].
    apply set_not_null_spec in Hs. apply set_not_null_spec in He.
    rewrite Hs, He in Hc.
    assert (Hr : range_intersects q s e = false).
    { apply (check_overlap_ok db s e (Some i) Hc q Hq). intros j Hj. congruence. }
    unfold range_intersects in Hr. rewrite H1, H2 in Hr. discriminate.
  - destruct (ppu_start_date u) as [x|], (ppu_end_date u) as [y|]; try discriminate Hset.
    simpl in Hs, He. injection Hs as <-. injection He as <-.
    apply (Hno p q Hp Hq); [congruence|]. split; assumption.
Qed.

(** C8: an update that sends neither start_date nor end_date (say only
    checking_budget) is applied without date validation or overlap check,
    whatever the other stored periods hold; an update that sends either
    date fails with the error of the validation of the resulting dates, or
    else with the error of the overlap check against the other periods. *)
Theorem update_pay_period_checks_only_date_changes (db : Db) (pay_period_id : Z)
  (updates : PayPeriodUpdate) (p : PayPeriod)
  (Hfound : find_pay_period db pay_period_id = Some p) :
  let new_start := match ppu_start_date updates with
                   | Some v => v | None => Some (pp_start_date p) end in
  let new_end := match ppu_end_date updates with
                 | Some v => v | None => Some (pp_end_date p) end in
  (ppu_start_date updates = None -> ppu_end_date updates = None ->
     let p' := mkPayPeriod (pp_id p) (pp_start_date p) (pp_end_date p)
                 (match ppu_checking_budget updates with
                  | Some v => v | None => pp_checking_budget p end) in
     update_pay_period pay_period_id updates db = Ok (p', replace_pay_period db p')) /\
  (is_set (ppu_start_date updates) || is_set (ppu_end_date updates) = true ->
     (forall err, validate_pay_period_dates new_start new_end = Err err ->
        update_pay_period pay_period_id updates db = Err err) /\
     (validate_pay_period_dates new_start new_end = Ok tt ->
      forall err, check_pay_period_overlap db new_start new_end (Some pay_period_id) = Err err ->
        update_pay_period pay_period_id updates db = Err err)).
Proof.
  cbv zeta. unfold update_pay_period. rewrite Hfound. split.
  - intros Hs He. rewrite Hs, He. reflexivity.
  - intros Hset. rewrite Hset. split.
    + intros err Hv. rewrite Hv. reflexivity.
    + intros Hv err Hc. rewrite Hv. simpl. rewrite Hc. reflexivity.
Qed.

Lemma no_overlap_snoc (ps : list PayPeriod) (p : PayPeriod) :
  no_overlap ps ->
  (forall q, In q ps -> range_intersects q (pp_start_date p) (pp_end_date p) = false) ->
  no_overlap (ps ++ [p]).
Proof.
  unfold no_overlap, periods_intersect, range_intersects.
  intros Hno Hr a b Ha Hb Hab [H1 H2].
  apply in_app_or in Ha as [Ha|[<-|[]]]; apply in_app_or in Hb as [Hb|[<-|[]]].
  - exact (Hno a b Ha Hb Hab (conj H1 H2)).
  - specialize (Hr a Ha). rewrite H1, H2 in Hr. discriminate.
  - specialize (Hr b Hb). rewrite H1, H2 in Hr. discriminate.
  - exact (Hab eq_refl).
Qed.

Lemma no_overlap_replace (ps : list PayPeriod) (p' : PayPeriod) :
  no_overlap ps ->
  (forall q, In q ps -> pp_id q <> pp_id p' -> ~ periods_intersect p' q) ->
  no_overlap (map (fun x => if pp_id x =? pp_id p' then p' else x) ps).
Proof.
  unfold no_overlap. intros Hno Hnew a b Ha Hb Hab Hi.
  apply in_map_iff in Ha as [a0 [Ea Ha]]. apply in_map_iff in Hb as [b0 [Eb Hb]].
  destruct (Z.eqb_spec (pp_id a0) (pp_id p')) as [Ha0|Ha0];
  destruct (Z.eqb_spec (pp_id b0) (pp_id p')) as [Hb0|Hb0]; subst a b.
  - exact (Hab eq_refl).
  - exact (Hnew b0 Hb Hb0 Hi).
  - apply (Hnew a0 Ha Ha0). destruct Hi as [H1 H2]. split; assumption.
  - exact (Hno a0 b0 Ha Hb Hab Hi).
Qed.

Lemma ids_replace (ps : list PayPeriod) (p' : PayPeriod) :
  map pp_id (map (fun x => if pp_id x =? pp_id p' then p' else x) ps) = map pp_id ps.
Proof.
  rewrite map_map. apply map_ext. intros x.
  destruct (Z.eqb_spec (pp_id x) (pp_id p')); congruence.
Qed.

Lemma NoDup_snoc {A} (l : list A) (x : A) : NoDup l -> ~ In x l -> NoDup (l ++ [x]).
Proof.
  induction 1 as [|y l Hy Hl IH]; simpl; intros Hx.
  - constructor; [intros []|constructor].
  - constructor.
    + intros Hin. apply in_app_or in Hin as [Hin|[Hin|[]]]; [exact (Hy Hin)|].
      apply Hx. left. symmetry. exact Hin.
    + apply IH. intros Hin. apply Hx. right. exact Hin.
Qed.

Lemma NoDup_map_filter {A B} (g : A -> B) (f : A -> bool) (l : list A) :
  NoDup (map g l) -> NoDup (map g (filter f l)).
Proof.
  induction l as [|x l IH]; simpl; [auto|]. intros Hnd. inversion Hnd as [|y r Hy Hr]; subst.
  destruct (f x); simpl; [|exact (IH Hr)].
  constructor; [|exact (IH Hr)].
  intros Hin. apply Hy. apply in_map_iff in Hin as [z [Ez Hz]]. apply filter_In in Hz as [Hz _].
  rewrite <- Ez. apply in_map. exact Hz.
Qed.

Lemma pay_period_request_ok (db : Db) (req : PayPeriodRequest) :
  pay_periods_ok db -> pay_periods_ok (pay_period_request req db).
Proof.
  intros [Hno [Hnd Hlt]].
  assert (Hsame : pay_periods_ok db) by (split; [|split]; assumption).
  destruct req as [data|i u|i]; simpl; unfold run.
  - destruct (create_pay_period data db) as [[p db']|err] eqn:Hc; [|exact Hsame].
    apply create_pay_period_ok in Hc as [Hp [-> Hr]]. unfold pay_periods_ok; simpl.
    split; [|split].
    + apply no_overlap_snoc; [exact Hno|]. rewrite Hp. exact Hr.
    + rewrite map_app. apply NoDup_snoc; [exact Hnd|]. intros Hin.
      apply in_map_iff in Hin as [q [Hq Hin]]. rewrite Forall_forall in Hlt.
      specialize (Hlt q Hin). rewrite Hp in Hq. simpl in Hq. lia.
    + apply Forall_app. split.
      * refine (Forall_impl _ _ Hlt). intros q Hq. lia.
      * constructor; [rewrite Hp; simpl; lia|constructor].
  - destruct (update_pay_period i u db) as [[p' db']|err] eqn:Hu; [|exact Hsame].
    destruct (update_pay_period_ok db i u p' db' Hno Hu) as [p [Hp [Hpi [Hp'i [-> Hnew]]]]].
    unfold pay_periods_ok, replace_pay_period; simpl. split; [|split].
    + apply no_overlap_replace; [exact Hno|]. intros q Hq Hqi. apply Hnew; [exact Hq|congruence].
    + rewrite ids_replace. exact Hnd.
    + rewrite Forall_forall in *. intros a Ha. apply in_map_iff in Ha as [a0 [Ea Ha]].
      specialize (Hlt a0 Ha). destruct (Z.eqb_spec (pp_id a0) (pp_id p')); subst a; lia.
  - destruct (delete_pay_period i db) as [[[] db']|err] eqn:Hd; [|exact Hsame].
    unfold delete_pay_period in Hd. destruct (find_pay_period db i); [|discriminate].
    injection Hd as <-. unfold pay_periods_ok; simpl. split; [|split].
    + intros a b Ha Hb. apply filter_In in Ha as [Ha _]. apply filter_In in Hb as [Hb _].
      exact (Hno a b Ha Hb).
    + apply NoDup_map_filter. exact Hnd.
    + rewrite Forall_forall in *. intros a Ha. apply filter_In in Ha as [Ha _]. exact (Hlt a Ha).
Qed.

(** ** Recurring expense templates (C4) *)

Lemma validate_recurring_ok (f : string) (d : Z) (m : option Z) :
  validate_recurring_expense f d m = Ok tt <-> recurrence_valid f d m.
Proof.
  unfold validate_recurring_expense, recurrence_valid.
  destruct (String.eqb_spec f "monthly") as [Hm|Hm];
  destruct (String.eqb_spec f "yearly") as [Hy|Hy];
  [subst f; discriminate| | |]; simpl;
  destruct (Z.leb_spec 1 d) as [Hd1|Hd1], (Z.leb_spec d 31) as [Hd2|Hd2]; simpl;
  try (split; [discriminate|intros [_ [Hd _]]; lia]).
  - destruct m as [k|].
    + split; [discriminate|]. intros [_ [_ [_ Hn]]]. specialize (Hn Hy). discriminate.
    + split; [intros _; split; [left; exact Hm|split; [lia|split; [contradiction|reflexivity]]]|
              reflexivity].
  - destruct m as [k|].
    + destruct (Z.leb_spec 1 k) as [Hk1|Hk1], (Z.leb_spec k 12) as [Hk2|Hk2]; simpl;
        try (split; [discriminate|intros [_ [_ [Hn _]]]; destruct (Hn Hy) as [k' [Hk Hb]];
                                  injection Hk as <-; lia]).
      split; [intros _|reflexivity].
      split; [right; exact Hy|split; [lia|split; [intros _; exists k; split; [reflexivity|lia]|
                                                  contradiction]]].
    + split; [discriminate|]. intros [_ [_ [Hn _]]]. destruct (Hn Hy) as [k' [Hk _]]. discriminate.
  - split; [discriminate|]. intros [[Hn|Hn] _]; contradiction.
Qed.

(** C4 (spec-modelled endpoints): a create whose frequency, day_of_month
    and month_of_year violate the template constraint fails and leaves
    the store unchanged; a successful update stores a template satisfying
    it; and every create or update keeps all stored templates valid. *)
Theorem recurring_templates_validated :
  (forall (db : Db) (data : RecurringExpenseCreate),
     ~ recurrence_valid (rec_frequency data) (rec_day_of_month data) (rec_month_of_year data) ->
     run (create_recurring_expense data) db = (Err InvalidRecurrence, db)) /\
  (forall (db : Db) (i : Z) (u : RecurringExpenseUpdate) (r : RecurringExpense) (db' : Db),
     update_recurring_expense i u db = Ok (r, db') ->
     recurrence_valid (re_frequency r) (re_day_of_month r) (re_month_of_year r)) /\
  (forall (db : Db) (data : RecurringExpenseCreate),
     recurring_store_ok db -> recurring_store_ok (snd (run (create_recurring_expense data) db))) /\
  (forall (db : Db) (i : Z) (u : RecurringExpenseUpdate),
     recurring_store_ok db -> recurring_store_ok (snd (run (update_recurring_expense i u) db))).
Proof.
  split; [|split; [|split]].
  - intros db data Hbad. unfold run, create_recurring_expense.
    destruct (validate_recurring_expense (rec_frequency data) (rec_day_of_month data)
                (rec_month_of_year data)) as [[]|err] eqn:Hv.
    + exfalso. apply Hbad, validate_recurring_ok, Hv.
    + simpl. unfold validate_recurring_expense in Hv.
      repeat match type of Hv with
             | context [if ?b then _ else _] => destruct b
             | context [match ?o with Some _ => _ | None => _ end] => destruct o
             end; congruence.
  - intros db i u r db' H. unfold update_recurring_expense in H.
    destruct (find _ _) as [r0|]; [|discriminate].
    do 6 peel_bind H.
    cbv zeta in H. apply bind_ok in H. destruct H as [[] [Hv H]]. injection H as <- _. simpl.
    apply validate_recurring_ok, Hv.
  - intros db data Hok. unfold run.
    destruct (create_recurring_expense data db) as [[r db']|err] eqn:Hc; [|exact Hok].
    unfold create_recurring_expense in Hc. apply bind_ok in Hc. destruct Hc as [[] [Hv Hc]].
    injection Hc as <- <-. unfold recurring_store_ok. simpl.
    apply Forall_app. split; [exact Hok|]. constructor; [|constructor]. simpl.
    apply validate_recurring_ok, Hv.
  - intros db i u Hok. unfold run.
    destruct (update_recurring_expense i u db) as [[r db']|err] eqn:Hu; [|exact Hok].
    assert (Hr : recurrence_valid (re_frequency r) (re_day_of_month r) (re_month_of_year r)).
    { unfold update_recurring_expense in Hu. destruct (find _ _) as [r0|]; [|discriminate].
      do 6 peel_bind Hu.
      cbv zeta in Hu. apply bind_ok in Hu. destruct Hu as [[] [Hv Hu]]. injection Hu as <- _. simpl.
      apply validate_recurring_ok, Hv. }
    unfold update_recurring_expense in Hu. destruct (find _ _) as [r0|]; [|discriminate].
    do 6 peel_bind Hu.
    cbv zeta in Hu. apply bind_ok in Hu. destruct Hu as [[] [_ Hu]]. injection Hu as Er <-. simpl.
    unfold recurring_store_ok in *. simpl. rewrite Forall_forall in *. intros x Hx.
    apply in_map_iff in Hx as [x0 [Ex Hx]].
    destruct (re_id x0 =? i); subst x; [rewrite Er; exact Hr|exact (Hok x0 Hx)].
Qed.

(** ** Instances of the theorems on concrete stores *)



(** C1 on [db_shared_category]: deleting category 1 fails and rolls back. *)
Lemma delete_category_blocked_witness :
  find_category db_shared_category 1 <> None /\
  In (mkProjectedExpense 1 "Grocery Restock" 100 "2024-03-05" (Some 1) None (Some false) None)
     (projected_expenses db_shared_category) /\
  run (delete_category 1) db_shared_category = (Err IntegrityError, db_shared_category).
Proof.
  split; [vm_compute; discriminate|split; [left; reflexivity|]].
  apply (delete_category_blocked_by_projected_expense db_shared_category 1
           (mkProjectedExpense 1 "Grocery Restock" 100 "2024-03-05" (Some 1) None (Some false) None)).
  - vm_compute. discriminate.
  - left. reflexivity.
  - reflexivity.
Defined.



(** C8 on [db_conflicting_periods]: a budget-only update of period 1 goes
    through although the stored periods 1 and 2 overlap; moving its end
    date is checked and refused. *)
Lemma update_pay_period_checks_only_date_changes_witness :
  find_pay_period db_conflicting_periods 1 = Some (mkPayPeriod 1 "2024-01-01" "2024-01-15" (Some 2000)) /\
  update_pay_period 1 (mkPayPeriodUpdate None None (Some (Some 2500))) db_conflicting_periods
    = Ok (mkPayPeriod 1 "2024-01-01" "2024-01-15" (Some 2500),
          replace_pay_period db_conflicting_periods
            (mkPayPeriod 1 "2024-01-01" "2024-01-15" (Some 2500))) /\
  update_pay_period 1 (mkPayPeriodUpdate None (Some (Some "2024-01-12")) None) db_conflicting_periods
    = Err (OverlapConflict "2024-01-10" "2024-01-20").
Proof.
  split; [reflexivity|split].
  - destruct (update_pay_period_checks_only_date_changes db_conflicting_periods 1
                (mkPayPeriodUpdate None None (Some (Some 2500)))
                (mkPayPeriod 1 "2024-01-01" "2024-01-15" (Some 2000)) eq_refl) as [H _].
    exact (H eq_refl eq_refl).
  - destruct (update_pay_period_checks_only_date_changes db_conflicting_periods 1
                (mkPayPeriodUpdate None (Some (Some "2024-01-12")) None)
                (mkPayPeriod 1 "2024-01-01" "2024-01-15" (Some 2000)) eq_refl) as [_ H].
    destruct (H eq_refl) as [_ H2].
    apply H2; vm_compute; reflexivity.
Defined.

(** C4: a weekly template is refused; a valid yearly one is stored and
    the empty store stays valid. *)
Lemma recurring_templates_validated_witness :
  run (create_recurring_expense
         (mkRecurringExpenseCreate "Gym" 40 "weekly" 5 None "2024-01-01" None None None)) empty_db
    = (Err InvalidRecurrence, empty_db) /\
  recurring_store_ok
    (snd (run (create_recurring_expense
                 (mkRecurringExpenseCreate "Insurance" 900 "yearly" 15 (Some 3) "2024-01-01"
                    None None None)) empty_db)).
Proof.
  destruct recurring_templates_validated as [Hbad [_ [Hcreate _]]].
  split.
  - apply Hbad. simpl. intros [[Hf|Hf] _]; discriminate.
  - apply Hcreate. constructor.
Defined.

(** * Further properties of the handlers *)

(** ** The byte-wise string order *)

Lemma str_leb_refl (a : string) : str_leb a a = true.
Proof.
  induction a as [|x a IH]; simpl; [reflexivity|].
  rewrite Nat.ltb_irrefl, Ascii.eqb_refl. exact IH.
Qed.

Lemma str_leb_total (a b : string) : str_leb a b = false -> str_leb b a = true.
Proof.
  revert b; induction a as [|x a IH]; intros [|y b]; simpl; try discriminate; auto.
  destruct (Nat.ltb_spec (nat_of_ascii x) (nat_of_ascii y)) as [Hlt|Hge]; [discriminate|].
  destruct (Ascii.eqb_spec x y) as [<-|Hne]; intros H.
  - rewrite Nat.ltb_irrefl, Ascii.eqb_refl. exact (IH b H).
  - destruct (Nat.ltb_spec (nat_of_ascii y) (nat_of_ascii x)) as [Hlt'|Hge']; [reflexivity|].
    exfalso. apply Hne.
    rewrite <- (Ascii.ascii_nat_embedding x), <- (Ascii.ascii_nat_embedding y).
    f_equal. lia.
Qed.

Lemma str_ltb_leb (a b : string) : str_ltb a b = true -> str_leb a b = true.
Proof. unfold str_ltb. destruct (str_leb a b); [reflexivity|discriminate]. Qed.

Lemma str_ltb_false (a b : string) : str_ltb a b = false -> str_leb b a = true.
Proof.
  unfold str_ltb. destruct (str_leb a b) eqn:E; simpl.
  - destruct (String.eqb_spec a b) as [->|]; [intros _; apply str_leb_refl|discriminate].
  - intros _. exact (str_leb_total a b E).
Qed.

(** ** Insertion sorting *)

Lemma insert_by_perm {A} (before : A -> A -> bool) (x : A) (l : list A) :
  Permutation (insert_by before x l) (x :: l).
Proof.
  induction l as [|y l IH]; simpl; [reflexivity|].
  destruct (before x y); [reflexivity|].
  rewrite IH. apply perm_swap.
Qed.

Lemma sort_by_perm {A} (before : A -> A -> bool) (l : list A) :
  Permutation (sort_by before l) l.
Proof.
  induction l as [|x l IH]; simpl; [reflexivity|].
  rewrite insert_by_perm. apply perm_skip, IH.
Qed.

Section InsertSorted.
Context {A : Type} (before : A -> A -> bool) (R : A -> A -> Prop).
Hypothesis before_true : forall x y, before x y = true -> R x y.
Hypothesis before_false : forall x y, before x y = false -> R y x.

Lemma insert_by_sorted (x : A) (l : list A) :
  Sorted R l -> Sorted R (insert_by before x l).
Proof.
  induction 1 as [|y l Hs IH Hhd]; simpl; [repeat constructor|].
  destruct (before x y) eqn:E.
  - constructor; [constructor; assumption|constructor; apply before_true, E].
  - constructor; [exact IH|].
    destruct l as [|z l']; simpl; [constructor; apply before_false, E|].
    destruct (before x z); constructor; [apply before_false, E|inversion Hhd; assumption].
Qed.

Lemma sort_by_sorted (l : list A) : Sorted R (sort_by before l).
Proof. induction l as [|x l IH]; simpl; [constructor|apply insert_by_sorted, IH]. Qed.
End InsertSorted.

(** A descending sort on a string key. *)
Lemma sort_by_key_desc {A} (key : A -> string) (before : A -> A -> bool) (l : list A)
  (Hle : forall x y, before x y = true -> str_leb (key y) (key x) = true)
  (Hgt : forall x y, before x y = false -> str_leb (key x) (key y) = true) :
  sorted_desc key (sort_by before l).
Proof. apply sort_by_sorted; assumption. Qed.

Lemma insert_date_desc_by (x : ProjectedExpense) (l : list ProjectedExpense) :
  insert_date_desc x l = insert_by (fun x y => str_ltb (pe_date y) (pe_date x)) x l.
Proof. induction l as [|y l IH]; simpl; [reflexivity|]. rewrite IH. reflexivity. Qed.

Lemma sort_date_desc_by (l : list ProjectedExpense) :
  sort_date_desc l = sort_by (fun x y => str_ltb (pe_date y) (pe_date x)) l.
Proof.
  induction l as [|y l IH]; simpl; [reflexivity|]. rewrite IH. apply insert_date_desc_by.
Qed.

(** ** Listings *)



(** Pay period listing: every stored pay period once per row, latest
    [start_date] first. *)
Theorem get_pay_periods_ordered (db : Db) :
  sorted_desc pp_start_date (get_pay_periods db) /\
  Permutation (get_pay_periods db) (pay_periods db).
Proof.
  unfold get_pay_periods. split; [|apply sort_by_perm].
  apply sort_by_key_desc; intros x y H; [apply str_ltb_leb, H|apply str_ltb_false, H].
Qed.

(** ** Categories *)

Lemma run_ok {A} (h : Db -> Result (A * Db)) (db db' : Db) (a : A) :
  run h db = (Ok a, db') -> h db = Ok (a, db').
Proof. unfold run. destruct (h db) as [[x d]|e]; intros H; inversion H; reflexivity. Qed.

Lemma NoDup_map_inj {A B} (f : A -> B) (l : list A) (x y : A) :
  NoDup (map f l) -> In x l -> In y l -> f x = f y -> x = y.
Proof.
  induction l as [|z l IH]; simpl; [contradiction|].
  intros Hnd Hx Hy Hf. inversion Hnd as [|b r Hb Hr]; subst.
  destruct Hx as [<-|Hx], Hy as [<-|Hy]; [reflexivity| | |exact (IH Hr Hx Hy Hf)].
  - exfalso. apply Hb. rewrite Hf. apply in_map, Hy.
  - exfalso. apply Hb. rewrite <- Hf. apply in_map, Hx.
Qed.

Lemma find_category_some (db : Db) (i : Z) (c : ConnalaideCategory) :
  find_category db i = Some c -> In c (categories db) /\ cat_id c = i.
Proof.
  unfold find_category. intros H. apply find_some in H as [Hin Hid].
  split; [exact Hin|apply Z.eqb_eq, Hid].
Qed.

Lemma NoDup_names_replace (cs : list ConnalaideCategory) (i : Z) (n : string) (tb : option Z) :
  NoDup (map cat_id cs) -> NoDup (map cat_name cs) ->
  (forall c, In c cs -> cat_id c <> i -> cat_name c <> n) ->
  NoDup (map cat_name (map (fun c' => if cat_id c' =? i then mkCategory i n tb else c') cs)).
Proof.
  induction cs as [|c cs IH]; simpl; [constructor|].
  intros Hid Hnm Hother. inversion Hid as [|a r Ha Hr]; inversion Hnm as [|a' r' Ha' Hr']; subst.
  constructor.
  - rewrite map_map. intros Hin. apply in_map_iff in Hin as [x [Ex Hx]].
    destruct (Z.eqb_spec (cat_id c) i) as [Ec|Ec], (Z.eqb_spec (cat_id x) i) as [Ex'|Ex'];
      simpl in Ex.
    + apply Ha. rewrite Ec, <- Ex'. apply in_map, Hx.
    + apply (Hother x (or_intror Hx) Ex'). exact Ex.
    + apply (Hother c (or_introl eq_refl) Ec). symmetry. exact Ex.
    + apply Ha'. rewrite <- Ex. apply in_map, Hx.
  - apply IH; [exact Hr|exact Hr'|]. intros x Hx. apply Hother. right. exact Hx.
Qed.

Lemma categories_ok_replace (db : Db) (i : Z) (n : string) (tb : option Z) :
  categories_ok db -> (String.length n <= 100)%nat ->
  (forall c, In c (categories db) -> cat_id c <> i -> cat_name c <> n) ->
  categories_ok (replace_category db (mkCategory i n tb)).
Proof.
  intros [Hid [Hnm [Hlt Hlen]]] Hn Hother. unfold categories_ok, replace_category. simpl.
  split; [|split; [|split]].
  - rewrite map_map. erewrite map_ext; [exact Hid|].
    intros x. destruct (cat_id x =? i) eqn:E; [apply Z.eqb_eq in E; simpl; lia|reflexivity].
  - apply NoDup_names_replace; [exact Hid|exact Hnm|exact Hother].
  - rewrite Forall_forall in *. intros x Hx. apply in_map_iff in Hx as [y [Ey Hy]].
    destruct (cat_id y =? i) eqn:E; subst x; [simpl; apply Z.eqb_eq in E; rewrite <- E|];
      exact (Hlt y Hy).
  - rewrite Forall_forall in *. intros x Hx. apply in_map_iff in Hx as [y [Ey Hy]].
    destruct (cat_id y =? i); subst x; [exact Hn|exact (Hlen y Hy)].
Qed.

(** Category registry: distinct ids below the SERIAL value and distinct
    names hold before and after every create, update and delete request. *)
Theorem categories_ok_preserved :
  (forall (db : Db) (data : ConnalaideCategoryCreate),
     categories_ok db -> categories_ok (snd (run (create_category data) db))) /\
  (forall (db : Db) (i : Z) (u : ConnalaideCategoryUpdate),
     categories_ok db -> categories_ok (snd (run (update_category i u) db))) /\
  (forall (db : Db) (i : Z),
     categories_ok db -> categories_ok (snd (run (delete_category i) db))).
Proof.
  split; [|split].
  - intros db data Hok. unfold run.
    destruct (create_category data db) as [[c db']|] eqn:E; [|exact Hok]. cbn [snd].
    unfold create_category in E.
    destruct (find _ (categories db)) as [c0|] eqn:Hf; [discriminate|].
    peel_bind E. unfold db_insert_category in E. cbn [cat_name] in E.
    destruct (existsb _ (categories db)) eqn:He; [discriminate|].
    injection E as <- <-.
    destruct Hok as [Hid [Hnm [Hlt Hlen]]]. unfold categories_ok. simpl.
    rewrite !map_app. simpl. split; [|split; [|split]].
    + apply NoDup_snoc; [exact Hid|]. intros Hin. apply in_map_iff in Hin as [x [Ex Hx]].
      rewrite Forall_forall in Hlt. specialize (Hlt x Hx). lia.
    + apply NoDup_snoc; [exact Hnm|]. intros Hin. apply in_map_iff in Hin as [x [Ex Hx]].
      assert (Hex : existsb (fun c' => String.eqb (cat_name c') a) (categories db) = true).
      { apply existsb_exists. exists x. rewrite Ex, String.eqb_refl. auto. }
      rewrite Hex in He. discriminate.
    + apply Forall_app. split; [|constructor; [simpl; lia|constructor]].
      refine (Forall_impl _ _ Hlt). intros x Hx. lia.
    + apply Forall_app. split; [exact Hlen|constructor; [|constructor]].
      exact (pg_varchar_length _ _ _ Ha).
  - intros db i u Hok. unfold run.
    destruct (update_category i u db) as [[c' db']|] eqn:E; [|exact Hok]. cbn [snd].
    unfold update_category in E.
    destruct (find_category db i) as [c|] eqn:Hf; [|discriminate].
    destruct (find_category_some db i c Hf) as [Hc Hci].
    destruct (ccu_name u) as [[n|]|] eqn:Hn; cbv zeta in E.
    + destruct (existsb _ (categories db)) eqn:Hd1; [discriminate|].
      peel_bind E. peel_bind Ha.
      destruct (existsb _ (categories db)) eqn:Hd2 in Ha; [discriminate|].
      injection Ha as <-. injection E as <- <-.
      apply categories_ok_replace; [exact Hok|exact (pg_varchar_length _ _ _ Ha0)|].
      intros x Hx Hxi Hxn.
      assert (Hex : existsb (fun c0 => String.eqb (cat_name c0) a0 && negb (cat_id c0 =? i))
                            (categories db) = true).
      { apply existsb_exists. exists x. split; [exact Hx|].
        rewrite Hxn, String.eqb_refl. simpl.
        destruct (Z.eqb_spec (cat_id x) i); [contradiction|reflexivity]. }
      rewrite Hex in Hd2. discriminate.
    + discriminate.
    + cbn [bind] in E. injection E as <- <-.
      pose proof Hok as [Hid [Hnm [Hlt Hlen]]].
      apply categories_ok_replace; [exact Hok|rewrite Forall_forall in Hlen; exact (Hlen c Hc)|].
      intros x Hx Hxi Hxn. apply Hxi. rewrite <- Hci.
      f_equal. exact (NoDup_map_inj cat_name _ x c Hnm Hx Hc Hxn).
  - intros db i Hok. unfold run, delete_category.
    destruct (find_category db i) as [c|]; [|exact Hok]. simpl.
    unfold db_delete_category. simpl.
    destruct (_ || _); [exact Hok|]. simpl.
    destruct Hok as [Hid [Hnm [Hlt Hlen]]]. unfold categories_ok. simpl. split; [|split; [|split]].
    + apply NoDup_map_filter, Hid.
    + apply NoDup_map_filter, Hnm.
    + rewrite Forall_forall in *. intros x Hx. apply filter_In in Hx as [Hx _]. exact (Hlt x Hx).
    + rewrite Forall_forall in *. intros x Hx. apply filter_In in Hx as [Hx _]. exact (Hlen x Hx).
Qed.

(** Category update: an unknown id is NotFound; taking the name of
    another category is DuplicateName; a null name fails at commit; in
    each case the store is unchanged.  Sending a category's own current
    name is no conflict (in a store with distinct names). *)
Theorem update_category_outcomes :
  (forall (db : Db) (i : Z) (u : ConnalaideCategoryUpdate),
     find_category db i = None -> run (update_category i u) db = (Err NotFound, db)) /\
  (forall (db : Db) (i : Z) (other : ConnalaideCategory) (tb : option (option Z)),
     find_category db i <> None -> In other (categories db) -> cat_id other <> i ->
     run (update_category i (mkCategoryUpdate (Some (Some (cat_name other))) tb)) db
       = (Err DuplicateName, db)) /\
  (forall (db : Db) (i : Z) (tb : option (option Z)),
     find_category db i <> None ->
     run (update_category i (mkCategoryUpdate (Some None) tb)) db = (Err IntegrityError, db)) /\
  (forall (db : Db) (i : Z) (c : ConnalaideCategory) (tb : option (option Z)),
     categories_ok db -> find_category db i = Some c ->
     let c' := mkCategory i (cat_name c)
                 (match tb with Some v => v | None => cat_target_budget c end) in
     run (update_category i (mkCategoryUpdate (Some (Some (cat_name c))) tb)) db
       = (Ok c', replace_category db c')).
Proof.
  split; [|split; [|split]].
  - intros db i u Hf. unfold run, update_category. rewrite Hf. reflexivity.
  - intros db i other tb Hf Hin Hne. unfold run, update_category.
    destruct (find_category db i) as [c|]; [|contradiction]. simpl.
    replace (existsb _ _) with true; [reflexivity|]. symmetry.
    apply existsb_exists. exists other. split; [exact Hin|].
    rewrite String.eqb_refl. simpl. destruct (Z.eqb_spec (cat_id other) i); [contradiction|reflexivity].
  - intros db i tb Hf. unfold run, update_category.
    destruct (find_category db i) as [c|]; [reflexivity|contradiction].
  - intros db i c tb [Hid [Hnm [_ Hlen]]] Hf. cbv zeta. unfold run, update_category. rewrite Hf.
    destruct (find_category_some db i c Hf) as [Hc Hci].
    rewrite Forall_forall in Hlen. cbn [ccu_name ccu_target_budget].
    rewrite (pg_varchar_short 100 (cat_name c) (Hlen c Hc)). cbn [bind].
    assert (Hfree : existsb (fun c0 => String.eqb (cat_name c0) (cat_name c) && negb (cat_id c0 =? i))
                            (categories db) = false).
    { apply Forall_existsb_false, Forall_forall. intros x Hx.
      destruct (String.eqb_spec (cat_name x) (cat_name c)) as [E|E]; [|reflexivity]. simpl.
      rewrite (NoDup_map_inj cat_name _ x c Hnm Hx Hc E), Hci, Z.eqb_refl. reflexivity. }
    rewrite Hfree. reflexivity.
Qed.

Lemma delete_category_unreferenced (db : Db) (i : Z) :
  find_category db i <> None ->
  (forall e, In e (projected_expenses db) -> pe_connelaide_category_id e <> Some i) ->
  exists db',
    run (delete_category i) db = (Ok tt, db') /\
    find_category db' i = None /\
    categories db' = filter (fun c => negb (cat_id c =? i)) (categories db) /\
    projected_expenses db' = projected_expenses db /\
    pay_periods db' = pay_periods db /\
    map txn_id (transactions db') = map txn_id (transactions db) /\
    (forall t, In t (transactions db') -> txn_connelaide_category_id t <> Some i) /\
    (forall t, In t (transactions db) -> txn_connelaide_category_id t <> Some i ->
               In t (transactions db')).
Proof.
  intros Hf Hpe. unfold run, delete_category.
  destruct (find_category db i) as [c|]; [|contradiction]. cbv zeta.
  unfold db_delete_category. simpl.
  replace (existsb _ (map _ (transactions db))) with false.
  2:{ symmetry. apply Forall_existsb_false, Forall_forall. intros t Ht.
      apply in_map_iff in Ht as [x [<- Hx]].
      destruct (nullable_eqb (txn_connelaide_category_id x) i) eqn:E; [reflexivity|exact E]. }
  replace (existsb _ (projected_expenses db)) with false.
  2:{ symmetry. apply Forall_existsb_false, Forall_forall. intros e He.
      specialize (Hpe e He). unfold nullable_eqb.
      destruct (pe_connelaide_category_id e) as [j|]; [|reflexivity].
      destruct (Z.eqb_spec j i); [subst; contradiction|reflexivity]. }
  simpl. eexists. split; [reflexivity|]. simpl.
  split; [|split; [reflexivity|split; [reflexivity|split; [reflexivity|split; [|split]]]]].
  - unfold find_category. simpl. apply find_none_existsb, Forall_existsb_false, Forall_forall.
    intros x Hx. apply filter_In in Hx as [_ Hx]. destruct (cat_id x =? i); [discriminate|reflexivity].
  - rewrite map_map. apply map_ext. intros x. destruct (nullable_eqb _ i); reflexivity.
  - intros t Ht. apply in_map_iff in Ht as [x [<- Hx]].
    destruct (nullable_eqb (txn_connelaide_category_id x) i) eqn:E; simpl; [discriminate|].
    unfold nullable_eqb in E. destruct (txn_connelaide_category_id x) as [j|]; [|discriminate].
    intros Hj. injection Hj as ->. rewrite Z.eqb_refl in E. discriminate.
  - intros t Ht Hti. apply in_map_iff. exists t. split; [|exact Ht].
    unfold nullable_eqb. destruct (txn_connelaide_category_id t) as [j|] eqn:Ej; [|reflexivity].
    destruct (Z.eqb_spec j i); [subst; contradiction|reflexivity].
Qed.

(** Category deletion: an unknown id is NotFound with the store
    unchanged.  A category that no projected expense references is
    deleted: it is gone, every transaction that used it is left without a
    category, and the other rows are kept. *)
Theorem delete_category_succeeds_unreferenced :
  (forall (db : Db) (i : Z),
     find_category db i = None -> run (delete_category i) db = (Err NotFound, db)) /\
  (forall (db : Db) (i : Z),
     find_category db i <> None ->
     (forall e, In e (projected_expenses db) -> pe_connelaide_category_id e <> Some i) ->
     exists db',
       run (delete_category i) db = (Ok tt, db') /\
       find_category db' i = None /\
       categories db' = filter (fun c => negb (cat_id c =? i)) (categories db) /\
       projected_expenses db' = projected_expenses db /\
       pay_periods db' = pay_periods db /\
       map txn_id (transactions db') = map txn_id (transactions db) /\
       (forall t, In t (transactions db') -> txn_connelaide_category_id t <> Some i) /\
       (forall t, In t (transactions db) -> txn_connelaide_category_id t <> Some i ->
                  In t (transactions db'))).
Proof.
  split.
  - intros db i Hf. unfold run, delete_category. rewrite Hf. reflexivity.
  - exact delete_category_unreferenced.
Qed.

(** Create, then read back: the row a successful create returns is what
    the GET endpoint for its id returns afterwards (in a store whose ids
    are below the SERIAL value). *)
Theorem create_then_get :
  (forall (db : Db) (data : ConnalaideCategoryCreate) (c : ConnalaideCategory) (db' : Db),
     Forall (fun c0 => cat_id c0 < category_seq db) (categories db) ->
     run (create_category data) db = (Ok c, db') -> get_category (cat_id c) db' = Ok c) /\
  (forall (db : Db) (data : PayPeriodCreate) (p : PayPeriod) (db' : Db),
     Forall (fun p0 => pp_id p0 < pay_period_seq db) (pay_periods db) ->
     run (create_pay_period data) db = (Ok p, db') -> get_pay_period (pp_id p) db' = Ok p).
Proof.
  split.
  - intros db data c db' Hlt H. apply run_ok in H. unfold create_category in H.
    destruct (find _ _) as [x|]; [discriminate|].
    peel_bind H. apply bind_ok in H as [d [Hins H]]. injection H as <- <-.
    unfold db_insert_category in Hins. destruct (existsb _ _); [discriminate|].
    injection Hins as <-. unfold get_category, find_category. simpl.
    rewrite find_app_none; [simpl; rewrite Z.eqb_refl; reflexivity|].
    apply find_none_existsb, Forall_existsb_false. refine (Forall_impl _ _ Hlt).
    intros x Hx. simpl. apply Z.eqb_neq. lia.
  - intros db data p db' Hlt H. apply run_ok, create_pay_period_ok in H as [-> [-> _]].
    unfold get_pay_period, find_pay_period. simpl.
    rewrite find_app_none; [simpl; rewrite Z.eqb_refl; reflexivity|].
    apply find_none_existsb, Forall_existsb_false. refine (Forall_impl _ _ Hlt).
    intros x Hx. simpl. apply Z.eqb_neq. lia.
Qed.

(** ** Transactions and projected expenses *)

Lemma Forall2_map_self {A} (R : A -> A -> Prop) (f : A -> A) (l : list A) :
  (forall x, In x l -> R x (f x)) -> Forall2 R l (map f l).
Proof.
  induction l as [|x l IH]; simpl; intros H; constructor; [apply H; left; reflexivity|].
  apply IH. intros y Hy. apply H. right. exact Hy.
Qed.

Lemma find_transaction_some (db : Db) (i : Z) (t : Transaction) :
  find_transaction db i = Some t -> In t (transactions db) /\ txn_id t = i.
Proof.
  unfold find_transaction. intros H. apply find_some in H as [Hin Hid].
  split; [exact Hin|apply Z.eqb_eq, Hid].
Qed.

Lemma find_projected_expense_some (db : Db) (i : Z) (e : ProjectedExpense) :
  find_projected_expense db i = Some e -> In e (projected_expenses db) /\ pe_id e = i.
Proof.
  unfold find_projected_expense. intros H. apply find_some in H as [Hin Hid].
  split; [exact Hin|apply Z.eqb_eq, Hid].
Qed.

Lemma check_category_ok (db : Db) (c : option Z) (v : unit) :
  check_category db c = Ok v -> forall i, c = Some i -> find_category db i <> None.
Proof.
  unfold check_category. intros H i ->. destruct (find_category db i); [discriminate|discriminate].
Qed.

(** Transaction update: an unknown id is NotFound and an unknown category
    is refused, the store unchanged.  A successful update only changes the
    row with that id (in a store with distinct ids), and never its
    [transaction_id], date, name or amount, nor any other table. *)
Theorem update_transaction_outcomes :
  (forall (db : Db) (i : Z) (u : TransactionUpdateRequest),
     find_transaction db i = None -> run (update_transaction i u) db = (Err NotFound, db)) /\
  (forall (db : Db) (i : Z) (u : TransactionUpdateRequest) (c : Z),
     find_transaction db i <> None -> tur_connelaide_category_id u = Some (Some c) ->
     find_category db c = None -> run (update_transaction i u) db = (Err InvalidCategory, db)) /\
  (forall (db : Db) (i : Z) (u : TransactionUpdateRequest) (t' : Transaction) (db' : Db),
     NoDup (map txn_id (transactions db)) ->
     update_transaction i u db = Ok (t', db') ->
     categories db' = categories db /\ projected_expenses db' = projected_expenses db /\
     pay_periods db' = pay_periods db /\ refresh_metadata db' = refresh_metadata db /\
     Forall2 (fun x x' => txn_id x' = txn_id x /\ txn_transaction_id x' = txn_transaction_id x /\
                          txn_date x' = txn_date x /\ txn_name x' = txn_name x /\
                          txn_amount x' = txn_amount x /\ (txn_id x <> i -> x' = x))
             (transactions db) (transactions db')).
Proof.
  split; [|split].
  - intros db i u Hf. unfold run, update_transaction. rewrite Hf. reflexivity.
  - intros db i u c Hf Hu Hc. unfold run, update_transaction.
    destruct (find_transaction db i) as [t|]; [|contradiction].
    rewrite Hu. simpl. rewrite Hc. reflexivity.
  - intros db i u t' db' Hnd H. unfold update_transaction in H.
    destruct (find_transaction db i) as [t|] eqn:Hf; [|discriminate].
    destruct (find_transaction_some db i t Hf) as [Ht Hti].
    do 3 peel_bind H. cbv zeta in H. injection H as <- <-. simpl.
    split; [reflexivity|split; [reflexivity|split; [reflexivity|split; [reflexivity|]]]].
    apply Forall2_map_self. intros x Hx. destruct (Z.eqb_spec (txn_id x) i) as [E|E].
    + assert (x = t) as -> by (apply (NoDup_map_inj txn_id _ x t Hnd Hx Ht); congruence).
      simpl. repeat split; intros; contradiction.
    + repeat split; intros; reflexivity.
Qed.


Lemma listing_after_replace (db : Db) (i : Z) (e' : ProjectedExpense)
      (query : list (string * string)) (s t : string) :
  query_get query "start_date" = Some s -> query_get query "end_date" = Some t ->
  (exists e, In e (projected_expenses db) /\ pe_id e = i) -> pe_id e' = i ->
  let db' := set_projected_expenses db
               (map (fun e => if pe_id e =? i then e' else e) (projected_expenses db)) in
  (forall rows,
     get_projected_expenses query db' = Ok rows ->
     (forall r, In r (map fst rows) -> pe_id r = i -> r = e') /\
     (In e' (map fst rows) <->
        str_leb s (pe_date e') = true /\ str_leb (pe_date e') t = true /\
        pe_merged_transaction_id e' = None)) /\
  (pe_is_struck_out e' = None ->
   str_leb s (pe_date e') = true -> str_leb (pe_date e') t = true ->
   pe_merged_transaction_id e' = None ->
   get_projected_expenses query db' = Err ResponseValidation).
Proof.
  intros Hs Ht [e [He Hei]] Hi db'.
  assert (Hin : In e' (map (fun e => if pe_id e =? i then e' else e) (projected_expenses db))).
  { apply in_map_iff. exists e. rewrite Hei, Z.eqb_refl. split; [reflexivity|exact He]. }
  split.
  - intros rows Hr. pose proof (listing_rows query db' s t rows Hs Ht Hr) as Hrows. split.
    + intros r Hr' Hri. apply Hrows, filter_In in Hr' as [Hr' _]. simpl in Hr'.
      apply in_map_iff in Hr' as [x [<- Hx]].
      destruct (Z.eqb_spec (pe_id x) i) as [E|E]; [reflexivity|contradiction].
    + rewrite Hrows, filter_In. simpl.
      rewrite !andb_true_iff, negb_true_iff.
      destruct (pe_merged_transaction_id e'); simpl; split.
      * intros [_ [_ Hc]]. discriminate.
      * intros [_ [_ Hc]]. discriminate.
      * intros [_ [[H1 H2] _]]. auto.
      * intros [H1 [H2 _]]. auto.
  - intros Hn H1 H2 H3. rewrite (get_projected_expenses_eq query db' s t Hs Ht). cbv zeta.
    destruct (forallb _ _) eqn:F; [exfalso|reflexivity].
    apply (proj1 (rows_valid_iff _ _) F e'); [|exact Hn].
    apply filter_In. split; [exact Hin|]. rewrite H1, H2, H3. reflexivity.
Qed.

(** Projected expense update: an unknown id is NotFound; merging into a
    transaction that does not exist is refused; sending null for the NOT
    NULL name, amount or date fails; in each case the store is unchanged.
    After a successful update the expense keeps its id, takes the merge
    target and the is_struck_out sent (an explicit null is stored), and a
    listing that succeeds shows it (as updated, and no older row of that
    id) exactly when its date is in the range and it is unmerged.  A NULL
    is_struck_out makes the response of the update itself, and every
    later listing of a range showing it, fail response validation. *)
Theorem update_projected_expense_outcomes :
  (forall (db : Db) (i : Z) (u : ProjectedExpenseUpdate),
     find_projected_expense db i = None ->
     run (update_projected_expense i u) db = (Err NotFound, db)) /\
  (forall (db : Db) (i : Z) (u : ProjectedExpenseUpdate) (t : Z),
     find_projected_expense db i <> None ->
     (forall c, peu_connelaide_category_id u = Some c -> check_category db c = Ok tt) ->
     peu_merged_transaction_id u = Some (Some t) -> find_transaction db t = None ->
     run (update_projected_expense i u) db = (Err InvalidTransaction, db)) /\
  (forall (db : Db) (i : Z) (u : ProjectedExpenseUpdate),
     peu_name u = Some None \/ peu_amount u = Some None \/ peu_date u = Some None ->
     exists err, run (update_projected_expense i u) db = (Err err, db)) /\
  (forall (db : Db) (i : Z) (u : ProjectedExpenseUpdate) (e' : ProjectedExpense)
          (n : option string) (db' : Db),
     update_projected_expense i u db = Ok ((e', n), db') ->
     pe_id e' = i /\
     (forall v, peu_merged_transaction_id u = Some v -> pe_merged_transaction_id e' = v) /\
     (exists e, find_projected_expense db i = Some e /\
                pe_is_struck_out e' = match peu_is_struck_out u with
                                      | Some v => v | None => pe_is_struck_out e end) /\
     (pe_is_struck_out e' = None -> projected_expense_response (e', n) = Err ResponseValidation) /\
     forall query s t,
       query_get query "start_date" = Some s -> query_get query "end_date" = Some t ->
       (forall rows, get_projected_expenses query db' = Ok rows ->
         (forall r, In r (map fst rows) -> pe_id r = i -> r = e') /\
         (In e' (map fst rows) <->
            str_leb s (pe_date e') = true /\ str_leb (pe_date e') t = true /\
            pe_merged_transaction_id e' = None)) /\
       (pe_is_struck_out e' = None ->
        str_leb s (pe_date e') = true -> str_leb (pe_date e') t = true ->
        pe_merged_transaction_id e' = None ->
        get_projected_expenses query db' = Err ResponseValidation)).
Proof.
  split; [|split; [|split]].
  - intros db i u Hf. unfold run, update_projected_expense. rewrite Hf. reflexivity.
  - intros db i u t Hf Hc Hm Ht. unfold run, update_projected_expense.
    destruct (find_projected_expense db i) as [e|]; [|contradiction].
    destruct (peu_connelaide_category_id u) as [c|] eqn:Ec;
      [rewrite (Hc c eq_refl)|]; simpl; rewrite Hm, Ht; reflexivity.
  - intros db i u Hnull.
    destruct (update_projected_expense i u db) as [[a d]|err] eqn:E;
      [exfalso|exists err; unfold run; rewrite E; reflexivity].
    unfold update_projected_expense in E.
    destruct (find_projected_expense db i) as [e|]; [|discriminate].
    do 8 peel_bind E.
    destruct Hnull as [X|[X|X]]; rewrite X in *; simpl in *; discriminate.
  - intros db i u e' n db' H. unfold update_projected_expense in H.
    destruct (find_projected_expense db i) as [e|] eqn:Hf; [|discriminate].
    destruct (find_projected_expense_some db i e Hf) as [He Hei].
    do 8 peel_bind H. cbv zeta in H. injection H as <- _ <-.
    split; [exact Hei|split; [|split; [|split]]].
    + intros v Hv. simpl. rewrite Hv. reflexivity.
    + exists e. split; [reflexivity|]. reflexivity.
    + intros Hn. unfold projected_expense_response, projected_expense_valid. cbn [fst].
      rewrite Hn. reflexivity.
    + intros query s t Hs Ht.
      apply (listing_after_replace db i _ query s t Hs Ht); [|exact Hei].
      exists e. split; [exact He|exact Hei].
Qed.

Lemma delete_projected_expense_step (j : Z) (d : Db) :
  categories (snd (run (delete_projected_expense j) d)) = categories d /\
  forall e, In e (projected_expenses (snd (run (delete_projected_expense j) d))) ->
            In e (projected_expenses d) /\ pe_id e <> j.
Proof.
  unfold run, delete_projected_expense.
  destruct (find_projected_expense d j) eqn:Hf; simpl; split; try reflexivity.
  - intros e He. apply filter_In in He as [He Hj]. split; [exact He|].
    apply negb_true_iff, Z.eqb_neq in Hj. exact Hj.
  - intros e He. split; [exact He|]. unfold find_projected_expense in Hf.
    pose proof (find_none _ _ Hf e He) as Hn. simpl in Hn. apply Z.eqb_neq in Hn. exact Hn.
Qed.

Lemma delete_projected_expenses_fold (ids : list Z) (d : Db) :
  let d' := fold_left (fun d j => snd (run (delete_projected_expense j) d)) ids d in
  categories d' = categories d /\
  forall e, In e (projected_expenses d') -> In e (projected_expenses d) /\ ~ In (pe_id e) ids.
Proof.
  revert d. induction ids as [|j ids IH]; intros d; simpl.
  - split; [reflexivity|]. intros e He. split; [exact He|tauto].
  - destruct (IH (snd (run (delete_projected_expense j) d))) as [Hc Hp].
    destruct (delete_projected_expense_step j d) as [Hc1 Hp1]. split; [congruence|].
    intros e He. destruct (Hp e He) as [He1 Hn]. destruct (Hp1 e He1) as [He2 Hj].
    split; [exact He2|]. intros [E|E]; [congruence|contradiction].
Qed.

(** Deleting a category that projected expenses still use: a client that
    first deletes, one by one, every projected expense referencing it
    (whatever deletions fail) can then delete the category. *)
Theorem delete_category_after_clearing_expenses (db : Db) (i : Z) :
  find_category db i <> None ->
  let ids := map pe_id (filter (fun e => nullable_eqb (pe_connelaide_category_id e) i)
                               (projected_expenses db)) in
  let db1 := fold_left (fun d j => snd (run (delete_projected_expense j) d)) ids db in
  exists db2, run (delete_category i) db1 = (Ok tt, db2) /\ find_category db2 i = None /\
              (forall t, In t (transactions db2) -> txn_connelaide_category_id t <> Some i).
Proof.
  intros Hf ids db1. destruct (delete_projected_expenses_fold ids db) as [Hc Hp].
  fold db1 in Hc, Hp.
  destruct (delete_category_unreferenced db1 i) as [db2 [Hrun [Hgone [_ [_ [_ [_ [Ht _]]]]]]]].
  - unfold find_category. rewrite Hc. exact Hf.
  - intros e He Hei. destruct (Hp e He) as [He0 Hn]. apply Hn. apply in_map.
    apply filter_In. split; [exact He0|]. rewrite Hei. simpl. apply Z.eqb_refl.
  - exists db2. auto.
Qed.

(** ** Foreign keys *)

Lemma find_ne_none_exists {A} (f : A -> bool) (l : list A) :
  find f l <> None <-> exists x, In x l /\ f x = true.
Proof.
  split.
  - intros H. destruct (find f l) as [x|] eqn:E; [|contradiction].
    apply find_some in E. exists x. exact E.
  - intros [x [Hx Hfx]] E. pose proof (find_none f l E x Hx). congruence.
Qed.

Lemma find_key_map {A} (key : A -> Z) (f : A -> A) (l : list A) (t : Z) :
  (forall x, In x l -> key (f x) = key x) ->
  find (fun x => key x =? t) l <> None -> find (fun x => key x =? t) (map f l) <> None.
Proof.
  intros Hk. rewrite !find_ne_none_exists. intros [x [Hx Ht]].
  exists (f x). split; [apply in_map, Hx|]. rewrite Hk by exact Hx. exact Ht.
Qed.

Lemma find_key_filter {A} (key : A -> Z) (l : list A) (t i : Z) :
  t <> i -> find (fun x => key x =? t) l <> None ->
  find (fun x => key x =? t) (filter (fun x => negb (key x =? i)) l) <> None.
Proof.
  intros Hti. rewrite !find_ne_none_exists. intros [x [Hx Ht]].
  exists x. split; [|exact Ht]. apply filter_In. split; [exact Hx|].
  apply Z.eqb_eq in Ht. subst t. apply negb_true_iff, Z.eqb_neq. exact Hti.
Qed.

Lemma find_app_ne_none {A} (f : A -> bool) (l1 l2 : list A) :
  find f l1 <> None -> find f (l1 ++ l2) <> None.
Proof.
  rewrite !find_ne_none_exists. intros [x [Hx Ht]].
  exists x. split; [apply in_or_app; left; exact Hx|exact Ht].
Qed.

Lemma existsb_false_In {A} (f : A -> bool) (l : list A) :
  existsb f l = false -> forall x, In x l -> f x = false.
Proof.
  intros H x Hx. destruct (f x) eqn:E; [|reflexivity].
  assert (existsb f l = true) by (apply existsb_exists; exists x; auto). congruence.
Qed.

Lemma refs_ok_forall (db : Db) :
  refs_ok db <->
  (forall x, In x (transactions db) -> forall j, txn_connelaide_category_id x = Some j ->
             find_category db j <> None) /\
  (forall e, In e (projected_expenses db) -> forall j, pe_connelaide_category_id e = Some j ->
             find_category db j <> None) /\
  (forall e, In e (projected_expenses db) -> forall t, pe_merged_transaction_id e = Some t ->
             find_transaction db t <> None).
Proof.
  unfold refs_ok, category_refs_ok, merged_refs_ok. rewrite !Forall_forall. tauto.
Qed.

Lemma run_snd {A} (h : Db -> Result (A * Db)) (db : Db) (P : Db -> Prop) :
  P db -> (forall a d, h db = Ok (a, d) -> P d) -> P (snd (run h db)).
Proof.
  intros H0 H1. unfold run. destruct (h db) as [[a d]|e] eqn:E; simpl; [exact (H1 a d eq_refl)|exact H0].
Qed.

Lemma update_transaction_refs (db : Db) (i : Z) (u : TransactionUpdateRequest) :
  refs_ok db -> refs_ok (snd (run (update_transaction i u) db)).
Proof.
  intros Href. apply run_snd; [exact Href|]. intros t' d E.
  apply refs_ok_forall in Href as [HT [HP HM]].
  unfold update_transaction in E.
  destruct (find_transaction db i) as [t|] eqn:Hf; [|discriminate].
  destruct (find_transaction_some db i t Hf) as [Ht Hti].
  destruct (tur_connelaide_category_id u) as [c|] eqn:Ec.
  - peel_bind E. destruct a. do 2 peel_bind E. cbv zeta in E. injection E as <- <-.
    apply refs_ok_forall. unfold find_category, find_transaction.
    cbn [transactions projected_expenses categories set_transactions].
    split; [|split].
    + intros x' Hx' j Hj. apply in_map_iff in Hx' as [x [<- Hx]].
      destruct (txn_id x =? i).
      * cbn in Hj. subst c. exact (check_category_ok db _ _ Ha j eq_refl).
      * exact (HT x Hx j Hj).
    + exact HP.
    + intros e He t0 Ht0. apply find_key_map; [|exact (HM e He t0 Ht0)].
      intros x _. destruct (Z.eqb_spec (txn_id x) i) as [E|E]; [cbn; congruence|reflexivity].
  - do 3 peel_bind E. cbv zeta in E. injection E as <- <-.
    apply refs_ok_forall. unfold find_category, find_transaction.
    cbn [transactions projected_expenses categories set_transactions].
    split; [|split].
    + intros x' Hx' j Hj. apply in_map_iff in Hx' as [x [<- Hx]].
      destruct (txn_id x =? i).
      * cbn in Hj. exact (HT t Ht j Hj).
      * exact (HT x Hx j Hj).
    + exact HP.
    + intros e He t0 Ht0. apply find_key_map; [|exact (HM e He t0 Ht0)].
      intros x _. destruct (Z.eqb_spec (txn_id x) i) as [E|E]; [cbn; congruence|reflexivity].
Qed.

Lemma create_projected_expense_refs (new_id : Z) (data : ProjectedExpenseCreate) (db : Db) :
  refs_ok db -> refs_ok (snd (run (create_projected_expense new_id data) db)).
Proof.
  intros Href. unfold run. destruct (create_projected_expense new_id data db) as [[a d]|err] eqn:E;
    cbn [snd]; [|exact Href].
  apply refs_ok_forall in Href as [HT [HP HM]].
  unfold create_projected_expense in E. do 4 peel_bind E. cbv zeta in E. injection E as _ <-.
  apply refs_ok_forall. unfold find_category, find_transaction.
  cbn [transactions projected_expenses categories set_projected_expenses].
  split; [exact HT|split].
  - intros e He j Hj. apply in_app_or in He as [He|[<-|[]]]; [exact (HP e He j Hj)|].
    exact (check_category_ok db _ _ Ha j Hj).
  - intros e He t0 Ht0. apply in_app_or in He as [He|[<-|[]]]; [exact (HM e He t0 Ht0)|].
    discriminate.
Qed.

Lemma update_projected_expense_refs (i : Z) (u : ProjectedExpenseUpdate) (db : Db) :
  refs_ok db -> refs_ok (snd (run (update_projected_expense i u) db)).
Proof.
  intros Href. unfold run. destruct (update_projected_expense i u db) as [[a d]|err] eqn:E;
    cbn [snd]; [|exact Href].
  apply refs_ok_forall in Href as [HT [HP HM]].
  unfold update_projected_expense in E.
  destruct (find_projected_expense db i) as [e0|] eqn:Hf; [|discriminate].
  destruct (find_projected_expense_some db i e0 Hf) as [He0 Hei].
  peel_bind E. rename Ha into Hcat. peel_bind E. rename Ha into Hmer.
  do 6 peel_bind E. cbv zeta in E. injection E as _ <-.
  apply refs_ok_forall. unfold find_category, find_transaction.
  cbn [transactions projected_expenses categories set_projected_expenses].
  split; [exact HT|split].
  - intros e He j Hj. apply in_map_iff in He as [x [<- Hx]].
    destruct (pe_id x =? i); [|exact (HP x Hx j Hj)]. cbn in Hj.
    destruct (peu_connelaide_category_id u) as [c|].
    + subst c. exact (check_category_ok db _ _ Hcat j eq_refl).
    + exact (HP e0 He0 j Hj).
  - intros e He t0 Ht0. apply in_map_iff in He as [x [<- Hx]].
    destruct (pe_id x =? i); [|exact (HM x Hx t0 Ht0)]. cbn in Ht0.
    destruct (peu_merged_transaction_id u) as [m|].
    + subst m. destruct (find_transaction db t0) eqn:Et; [|discriminate].
      unfold find_transaction in Et. rewrite Et. discriminate.
    + exact (HM e0 He0 t0 Ht0).
Qed.

Lemma delete_projected_expense_refs (i : Z) (db : Db) :
  refs_ok db -> refs_ok (snd (run (delete_projected_expense i) db)).
Proof.
  intros Href. unfold run. destruct (delete_projected_expense i db) as [[a d]|err] eqn:E;
    cbn [snd]; [|exact Href].
  apply refs_ok_forall in Href as [HT [HP HM]].
  unfold delete_projected_expense in E.
  destruct (find_projected_expense db i); [|discriminate]. injection E as _ <-.
  apply refs_ok_forall. unfold find_category, find_transaction.
  cbn [transactions projected_expenses categories set_projected_expenses].
  split; [exact HT|split].
  - intros e He. apply filter_In in He as [He _]. exact (HP e He).
  - intros e He. apply filter_In in He as [He _]. exact (HM e He).
Qed.

Lemma create_category_refs (data : ConnalaideCategoryCreate) (db : Db) :
  refs_ok db -> refs_ok (snd (run (create_category data) db)).
Proof.
  intros Href. unfold run. destruct (create_category data db) as [[a d]|err] eqn:E;
    cbn [snd]; [|exact Href].
  apply refs_ok_forall in Href as [HT [HP HM]].
  unfold create_category in E. destruct (find _ _); [discriminate|].
  do 2 peel_bind E. injection E as _ <-.
  match goal with
  | H : db_insert_category _ _ = Ok _ |- _ =>
      unfold db_insert_category in H; destruct (existsb _ _); [discriminate|]; injection H as <-
  end.
  apply refs_ok_forall. unfold find_category, find_transaction in *.
  cbn [transactions projected_expenses categories set_categories].
  split; [|split; [|exact HM]].
  - intros x Hx j Hj. apply find_app_ne_none. exact (HT x Hx j Hj).
  - intros e He j Hj. apply find_app_ne_none. exact (HP e He j Hj).
Qed.

Lemma update_category_refs (i : Z) (u : ConnalaideCategoryUpdate) (db : Db) :
  refs_ok db -> refs_ok (snd (run (update_category i u) db)).
Proof.
  intros Href. unfold run. destruct (update_category i u db) as [[a d]|err] eqn:E;
    cbn [snd]; [|exact Href].
  apply refs_ok_forall in Href as [HT [HP HM]].
  unfold update_category in E. destruct (find_category db i); [|discriminate].
  cbv zeta in E. destruct (match ccu_name u with Some (Some n) => _ | _ => false end);
    [discriminate|].
  peel_bind E. injection E as _ <-.
  apply refs_ok_forall. unfold replace_category, find_category, find_transaction in *.
  cbn [transactions projected_expenses categories set_categories cat_id].
  split; [|split; [|exact HM]].
  - intros x Hx j Hj. apply (find_key_map cat_id); [|exact (HT x Hx j Hj)].
    intros y _. destruct (Z.eqb_spec (cat_id y) i); [cbn; congruence|reflexivity].
  - intros e He j Hj. apply (find_key_map cat_id); [|exact (HP e He j Hj)].
    intros y _. destruct (Z.eqb_spec (cat_id y) i); [cbn; congruence|reflexivity].
Qed.

Lemma delete_category_refs (i : Z) (db : Db) :
  refs_ok db -> refs_ok (snd (run (delete_category i) db)).
Proof.
  intros Href. unfold run. destruct (delete_category i db) as [[a d]|err] eqn:E;
    cbn [snd]; [|exact Href].
  apply refs_ok_forall in Href as [HT [HP HM]].
  unfold delete_category in E. destruct (find_category db i); [|discriminate].
  cbv zeta in E. unfold db_delete_category in E. cbn [transactions projected_expenses set_transactions] in E.
  destruct (existsb _ (map _ _) || existsb _ _) eqn:Ex; [discriminate|].
  apply orb_false_iff in Ex as [_ Ex]. injection E as _ <-.
  apply refs_ok_forall. unfold find_category, find_transaction in *.
  cbn [transactions projected_expenses categories set_categories set_transactions].
  split; [|split].
  - intros x' Hx' j Hj. apply in_map_iff in Hx' as [x [<- Hx]].
    destruct (nullable_eqb (txn_connelaide_category_id x) i) eqn:En; [discriminate|].
    rewrite Hj in En. cbn in En. apply Z.eqb_neq in En.
    apply (find_key_filter cat_id); [exact En|exact (HT x Hx j Hj)].
  - intros e He j Hj. apply (find_key_filter cat_id); [|exact (HP e He j Hj)].
    intros ->. pose proof (existsb_false_In _ _ Ex e He) as Hn.
    cbn beta in Hn. rewrite Hj in Hn. cbn in Hn. rewrite Z.eqb_refl in Hn. discriminate.
  - intros e He t0 Ht0. apply find_key_map; [|exact (HM e He t0 Ht0)].
    intros x _. destruct (nullable_eqb _ i); reflexivity.
Qed.

(** Foreign keys: in a store where every category and merge reference
    resolves, every request to the transaction, projected expense and
    category endpoints keeps them resolving, whether it succeeds or fails
    (the handlers check the references they write, and the database
    refuses to delete a category still in use). *)
Theorem handlers_keep_references (db : Db) :
  refs_ok db ->
  (forall i u, refs_ok (snd (run (update_transaction i u) db))) /\
  (forall new_id data, refs_ok (snd (run (create_projected_expense new_id data) db))) /\
  (forall i u, refs_ok (snd (run (update_projected_expense i u) db))) /\
  (forall i, refs_ok (snd (run (delete_projected_expense i) db))) /\
  (forall data, refs_ok (snd (run (create_category data) db))) /\
  (forall i u, refs_ok (snd (run (update_category i u) db))) /\
  (forall i, refs_ok (snd (run (delete_category i) db))).
Proof.
  intros H. repeat split; intros;
    first [ apply update_transaction_refs | apply create_projected_expense_refs
          | apply update_projected_expense_refs | apply delete_projected_expense_refs
          | apply create_category_refs | apply update_category_refs
          | apply delete_category_refs ]; exact H.
Qed.

Lemma refs_ok_db_shared_category : refs_ok db_shared_category.
Proof.
  apply refs_ok_forall. split; [|split]; intros x Hx; destruct Hx as [<-|[]];
    intros j Hj; cbn in Hj; first [discriminate | injection Hj as <-; vm_compute; discriminate].
Qed.

Lemma handlers_keep_references_witness :
  refs_ok db_shared_category /\
  refs_ok (snd (run (update_transaction 1 (mkTransactionUpdateRequest (Some None) None None None))
                    db_shared_category)).
Proof.
  split; [exact refs_ok_db_shared_category|].
  apply (handlers_keep_references db_shared_category refs_ok_db_shared_category).
Defined.

(** Delete, then read back: after a successful delete the row is gone
    (GET answers 404), whatever other rows shared its id. *)
Theorem delete_then_get :
  (forall (db : Db) (i : Z) (db' : Db),
     run (delete_category i) db = (Ok tt, db') -> get_category i db' = Err NotFound) /\
  (forall (db : Db) (i : Z) (db' : Db),
     run (delete_pay_period i) db = (Ok tt, db') -> get_pay_period i db' = Err NotFound) /\
  (forall (db : Db) (i : Z) (db' : Db),
     run (delete_projected_expense i) db = (Ok tt, db') -> find_projected_expense db' i = None).
Proof.
  split; [|split]; intros db i db' H; apply run_ok in H.
  - unfold delete_category in H. destruct (find_category db i); [|discriminate].
    cbv zeta in H. peel_bind H. injection H as <-. unfold db_delete_category in Ha.
    destruct (_ || _); [discriminate|]. injection Ha as <-.
    unfold get_category, find_category. cbn [categories set_categories].
    rewrite find_none_existsb; [reflexivity|]. apply Forall_existsb_false, Forall_forall.
    intros x Hx. apply filter_In in Hx as [_ Hx]. apply negb_true_iff in Hx. exact Hx.
  - unfold delete_pay_period in H. destruct (find_pay_period db i); [|discriminate].
    injection H as <-. unfold get_pay_period, find_pay_period. cbn [pay_periods set_pay_periods].
    rewrite find_none_existsb; [reflexivity|]. apply Forall_existsb_false, Forall_forall.
    intros x Hx. apply filter_In in Hx as [_ Hx]. apply negb_true_iff in Hx. exact Hx.
  - unfold delete_projected_expense in H. destruct (find_projected_expense db i); [|discriminate].
    injection H as <-. unfold find_projected_expense.
    cbn [projected_expenses set_projected_expenses].
    apply find_none_existsb, Forall_existsb_false, Forall_forall.
    intros x Hx. apply filter_In in Hx as [_ Hx]. apply negb_true_iff in Hx. exact Hx.
Qed.

Lemma delete_then_get_witness :
  run (delete_pay_period 2) db_conflicting_periods
    = (Ok tt, set_pay_periods db_conflicting_periods
                [mkPayPeriod 1 "2024-01-01" "2024-01-15" (Some 2000)] 3) /\
  get_pay_period 2 (set_pay_periods db_conflicting_periods
                      [mkPayPeriod 1 "2024-01-01" "2024-01-15" (Some 2000)] 3) = Err NotFound.
Proof.
  split; [reflexivity|]. apply (proj1 (proj2 delete_then_get) db_conflicting_periods 2).
  reflexivity.
Defined.



(** ** Canonical date strings *)

Lemma digit_char_nat (k : Z) :
  0 <= k <= 9 -> nat_of_ascii (digit_char k) = (48 + Z.to_nat k)%nat.
Proof.
  intros Hk. assert (k = 0 \/ k = 1 \/ k = 2 \/ k = 3 \/ k = 4 \/ k = 5 \/ k = 6 \/ k = 7 \/
                     k = 8 \/ k = 9) as Hc by lia.
  repeat destruct Hc as [->|Hc]; try reflexivity. subst. reflexivity.
Qed.

Lemma digit_char_eqb (a b : Z) :
  0 <= a <= 9 -> 0 <= b <= 9 -> Ascii.eqb (digit_char a) (digit_char b) = (a =? b).
Proof.
  intros Ha Hb. destruct (Ascii.eqb_spec (digit_char a) (digit_char b)) as [E|E];
    destruct (Z.eqb_spec a b) as [F|F]; try reflexivity.
  - apply (f_equal nat_of_ascii) in E. rewrite !digit_char_nat in E by assumption. lia.
  - subst. contradiction.
Qed.

Lemma str_leb_digit (a b : Z) (s t : string) :
  0 <= a <= 9 -> 0 <= b <= 9 ->
  str_leb (String (digit_char a) s) (String (digit_char b) t)
  = (a <? b) || ((a =? b) && str_leb s t).
Proof.
  intros Ha Hb. cbn [str_leb]. rewrite !digit_char_nat, digit_char_eqb by assumption.
  destruct (Nat.ltb_spec (48 + Z.to_nat a) (48 + Z.to_nat b)) as [L|L];
    destruct (Z.ltb_spec a b) as [M|M]; try lia; reflexivity.
Qed.

Lemma lex_num (a b r r' N : Z) :
  0 <= a -> 0 <= b -> 0 <= r < N -> 0 <= r' < N ->
  ((a * N + r) <? (b * N + r')) = (a <? b) || ((a =? b) && (r <? r')) /\
  ((a * N + r) =? (b * N + r')) = (a =? b) && (r =? r').
Proof.
  intros Ha Hb Hr Hr'.
  destruct (Z.ltb_spec a b) as [L|L]; destruct (Z.eqb_spec a b) as [E|E]; cbn [orb andb].
  - lia.
  - split; [apply Z.ltb_lt; nia | apply Z.eqb_neq; nia].
  - subst b. split.
    + destruct (Z.ltb_spec r r'); [apply Z.ltb_lt; lia | apply Z.ltb_ge; lia].
    + destruct (Z.eqb_spec r r'); [apply Z.eqb_eq; lia | apply Z.eqb_neq; lia].
  - split; [apply Z.ltb_ge; nia | apply Z.eqb_neq; nia].
Qed.

Lemma lex_step (a b r r' N : Z) (S T : string) :
  0 <= a <= 9 -> 0 <= b <= 9 -> 0 <= r < N -> 0 <= r' < N ->
  (forall s t, str_leb (String.append S s) (String.append T t)
               = (r <? r') || ((r =? r') && str_leb s t)) ->
  forall s t,
    str_leb (String.append (String (digit_char a) S) s) (String.append (String (digit_char b) T) t)
    = ((a * N + r) <? (b * N + r')) || (((a * N + r) =? (b * N + r')) && str_leb s t).
Proof.
  intros Ha Hb Hr Hr' HS s t.
  change (String.append (String (digit_char a) S) s) with (String (digit_char a) (String.append S s)).
  change (String.append (String (digit_char b) T) t) with (String (digit_char b) (String.append T t)).
  rewrite str_leb_digit, HS by assumption.
  destruct (lex_num a b r r' N) as [-> ->]; try lia.
  destruct (a <? b), (a =? b), (r <? r'), (r =? r'), (str_leb s t); reflexivity.
Qed.

Ltac lia_dm := Z.div_mod_to_equations; lia.

Lemma pad2_lex_mod (m m' : Z) :
  0 <= m -> 0 <= m' ->
  forall s t, str_leb (String.append (pad2 m) s) (String.append (pad2 m') t)
              = (m mod 100 <? m' mod 100) || ((m mod 100 =? m' mod 100) && str_leb s t).
Proof.
  intros Hm Hm'.
  assert (H0 : forall s t, str_leb (String.append EmptyString s) (String.append EmptyString t)
                          = (0 <? 0) || ((0 =? 0) && str_leb s t)) by reflexivity.
  pose proof (lex_step (m mod 10) (m' mod 10) 0 0 1 EmptyString EmptyString
                ltac:(lia_dm) ltac:(lia_dm) ltac:(lia_dm) ltac:(lia_dm) H0) as H1.
  assert (H1' : forall s t,
             str_leb (String.append (String (digit_char (m mod 10)) EmptyString) s)
                     (String.append (String (digit_char (m' mod 10)) EmptyString) t)
             = ((m mod 10) <? (m' mod 10)) || (((m mod 10) =? (m' mod 10)) && str_leb s t)).
  { intros s t. rewrite H1. rewrite !Z.mul_1_r, !Z.add_0_r. reflexivity. }
  pose proof (lex_step (m / 10 mod 10) (m' / 10 mod 10) (m mod 10) (m' mod 10) 10
                _ _ ltac:(lia_dm) ltac:(lia_dm) ltac:(lia_dm) ltac:(lia_dm) H1') as H2.
  intros s t. unfold pad2. rewrite H2.
  replace (m / 10 mod 10 * 10 + m mod 10) with (m mod 100) by lia_dm.
  replace (m' / 10 mod 10 * 10 + m' mod 10) with (m' mod 100) by lia_dm.
  reflexivity.
Qed.

Lemma pad2_lex (m m' : Z) :
  0 <= m <= 99 -> 0 <= m' <= 99 ->
  forall s t, str_leb (String.append (pad2 m) s) (String.append (pad2 m') t)
              = (m <? m') || ((m =? m') && str_leb s t).
Proof.
  intros Hm Hm' s t. rewrite pad2_lex_mod by lia. rewrite !Z.mod_small by lia. reflexivity.
Qed.

Lemma pad4_lex (y y' : Z) :
  0 <= y <= 9999 -> 0 <= y' <= 9999 ->
  forall s t, str_leb (String.append (pad4 y) s) (String.append (pad4 y') t)
              = (y <? y') || ((y =? y') && str_leb s t).
Proof.
  intros Hy Hy'.
  assert (H2 : forall s t,
             str_leb (String.append (String.append (pad2 y) EmptyString) s)
                     (String.append (String.append (pad2 y') EmptyString) t)
             = (y mod 100 <? y' mod 100) || ((y mod 100 =? y' mod 100) && str_leb s t)).
  { intros s t. change (String.append (pad2 y) EmptyString) with (pad2 y).
    change (String.append (pad2 y') EmptyString) with (pad2 y').
    apply pad2_lex_mod; lia. }
  pose proof (lex_step (y / 100 mod 10) (y' / 100 mod 10) (y mod 100) (y' mod 100) 100
                _ _ ltac:(lia_dm) ltac:(lia_dm) ltac:(lia_dm) ltac:(lia_dm) H2) as H3.
  pose proof (lex_step (y / 1000 mod 10) (y' / 1000 mod 10)
                (y / 100 mod 10 * 100 + y mod 100) (y' / 100 mod 10 * 100 + y' mod 100) 1000
                _ _ ltac:(lia_dm) ltac:(lia_dm) ltac:(lia_dm) ltac:(lia_dm) H3) as H4.
  intros s t. unfold pad4. rewrite H4.
  replace (y / 1000 mod 10 * 1000 + (y / 100 mod 10 * 100 + y mod 100)) with y by lia_dm.
  replace (y' / 1000 mod 10 * 1000 + (y' / 100 mod 10 * 100 + y' mod 100)) with y' by lia_dm.
  reflexivity.
Qed.

Lemma str_leb_dash (s t : string) :
  str_leb (String.append "-" s) (String.append "-" t) = str_leb s t.
Proof. reflexivity. Qed.

Lemma format_ymd_leb (y m d y' m' d' : Z) :
  0 <= y <= 9999 -> 0 <= m <= 99 -> 0 <= d <= 99 ->
  0 <= y' <= 9999 -> 0 <= m' <= 99 -> 0 <= d' <= 99 ->
  str_leb (format_ymd (y, m, d)) (format_ymd (y', m', d')) = negb (date_ltb (y', m', d') (y, m, d)).
Proof.
  intros Hy Hm Hd Hy' Hm' Hd'. unfold format_ymd, date_ltb.
  rewrite pad4_lex, str_leb_dash, pad2_lex, str_leb_dash by assumption.
  change (pad2 d) with (String.append (pad2 d) EmptyString).
  change (pad2 d') with (String.append (pad2 d') EmptyString).
  rewrite pad2_lex by assumption. cbn [str_leb].
  repeat match goal with
         | |- context [?a <? ?b] => destruct (Z.ltb_spec a b)
         | |- context [?a =? ?b] => destruct (Z.eqb_spec a b)
         end; try lia; reflexivity.
Qed.

Lemma p_digit_char (lo hi k : Z) (r : string) :
  0 <= k <= 9 -> lo <= k <= hi -> p_digit lo hi (String (digit_char k) r) = [(k, r)].
Proof.
  intros Hk Hb. unfold p_digit, digit_value. rewrite digit_char_nat by exact Hk.
  replace ((48 <=? 48 + Z.to_nat k)%nat && (48 + Z.to_nat k <=? 57)%nat) with true
    by (symmetry; apply andb_true_iff; split; apply Nat.leb_le; lia).
  replace (Z.of_nat (48 + Z.to_nat k) - 48) with k by lia.
  replace ((lo <=? k) && (k <=? hi)) with true
    by (symmetry; apply andb_true_iff; split; apply Z.leb_le; lia).
  reflexivity.
Qed.

Lemma re_Y_pad4 (y : Z) (r : string) :
  0 <= y <= 9999 -> re_Y (String.append (pad4 y) r) = [(y, r)].
Proof.
  intros Hy.
  change (String.append (pad4 y) r) with
    (String (digit_char (y / 1000 mod 10)) (String (digit_char (y / 100 mod 10))
       (String (digit_char (y / 10 mod 10)) (String (digit_char (y mod 10)) r)))).
  unfold re_Y, p_bind.
  rewrite p_digit_char by lia_dm. cbn [flat_map fst snd].
  rewrite p_digit_char by lia_dm. cbn [flat_map fst snd].
  rewrite p_digit_char by lia_dm. cbn [flat_map fst snd].
  rewrite p_digit_char by lia_dm. cbn [flat_map fst snd].
  unfold p_ret. cbn [flat_map fst snd app].
  replace (1000 * (y / 1000 mod 10) + 100 * (y / 100 mod 10) + 10 * (y / 10 mod 10) + y mod 10)
    with y by lia_dm.
  reflexivity.
Qed.

Lemma re_m_pad2 (m : Z) (r : string) :
  1 <= m <= 12 -> exists t, re_m (String.append (pad2 m) r) = (m, r) :: t.
Proof.
  intros Hm.
  assert (m = 1 \/ m = 2 \/ m = 3 \/ m = 4 \/ m = 5 \/ m = 6 \/ m = 7 \/ m = 8 \/ m = 9 \/
          m = 10 \/ m = 11 \/ m = 12) as Hc by lia.
  repeat destruct Hc as [->|Hc]; try (subst m); cbv; eexists; reflexivity.
Qed.

Lemma re_d_pad2 (d : Z) (r : string) :
  1 <= d <= 31 -> exists t, re_d (String.append (pad2 d) r) = (d, r) :: t.
Proof.
  intros Hd.
  assert (exists k, d = Z.of_nat k /\ (1 <= k <= 31)%nat) as [k [-> Hk]]
    by (exists (Z.to_nat d); split; lia).
  do 32 (destruct k as [|k]; [try lia; cbv; eexists; reflexivity|]). lia.
Qed.

Lemma head_bind {A B} (p : Parser A) (k : A -> Parser B) (s : string) (a : A) (r : string)
      (t : list (A * string)) (b : B) (r' : string) :
  p s = (a, r) :: t -> (exists t', k a r = (b, r') :: t') ->
  exists t', p_bind p k s = (b, r') :: t'.
Proof.
  intros Hp [t' Hk]. unfold p_bind. rewrite Hp. cbn [flat_map fst snd]. rewrite Hk.
  eexists. reflexivity.
Qed.

Lemma days_in_month_le (y m : Z) : days_in_month y m <= 31.
Proof.
  unfold days_in_month. destruct (m =? 2); [destruct (is_leap y)|destruct (_ || _)]; lia.
Qed.

(** [strptime] reads back what [strftime("%Y-%m-%d")] writes, for every
    date of years 1 to 9999. *)
Lemma strptime_format_ymd (y m d : Z) :
  1 <= y <= 9999 -> 1 <= m <= 12 -> 1 <= d <= days_in_month y m ->
  strptime_ymd (format_ymd (y, m, d)) = Some (y, m, d).
Proof.
  intros Hy Hm Hd. pose proof (days_in_month_le y m) as Hdm.
  assert (Hre : exists t, re_ymd (format_ymd (y, m, d)) = ((y, m, d), EmptyString) :: t).
  { unfold format_ymd, re_ymd.
    eapply head_bind; [apply re_Y_pad4; lia|]. cbv beta.
    eapply head_bind; [reflexivity|]. cbv beta.
    destruct (re_m_pad2 m (String.append "-" (pad2 d)) Hm) as [tm Hrm].
    eapply head_bind; [exact Hrm|]. cbv beta.
    eapply head_bind; [reflexivity|]. cbv beta.
    destruct (re_d_pad2 d EmptyString ltac:(lia)) as [td Hrd].
    change (pad2 d) with (String.append (pad2 d) EmptyString).
    eapply head_bind; [exact Hrd|]. cbv beta.
    eexists. reflexivity. }
  destruct Hre as [t Hre]. unfold strptime_ymd. rewrite Hre. cbn [String.eqb].
  replace ((1 <=? y) && (d <=? days_in_month y m)) with true
    by (symmetry; apply andb_true_iff; split; apply Z.leb_le; lia).
  reflexivity.
Qed.

(** Pay period dates written as [YYYY-MM-DD] (what [strftime] and the
    front end send): [validate_pay_period_dates] accepts a pair exactly
    when the start is not after the end, and the SQL string comparisons of
    [check_pay_period_overlap] agree with the calendar order. *)
Theorem canonical_pay_period_dates (y m d y' m' d' : Z) :
  1 <= y <= 9999 -> 1 <= m <= 12 -> 1 <= d <= days_in_month y m ->
  1 <= y' <= 9999 -> 1 <= m' <= 12 -> 1 <= d' <= days_in_month y' m' ->
  validate_pay_period_dates (Some (format_ymd (y, m, d))) (Some (format_ymd (y', m', d')))
    = (if date_ltb (y', m', d') (y, m, d) then Err InvalidRange else Ok tt) /\
  sql_le (Some (format_ymd (y, m, d))) (Some (format_ymd (y', m', d')))
    = negb (date_ltb (y', m', d') (y, m, d)).
Proof.
  intros Hy Hm Hd Hy' Hm' Hd'.
  pose proof (days_in_month_le y m). pose proof (days_in_month_le y' m'). split.
  - unfold validate_pay_period_dates, py_strptime.
    rewrite !strptime_format_ymd by assumption. reflexivity.
  - unfold sql_le. apply format_ymd_leb; lia.
Qed.

Lemma canonical_pay_period_dates_witness :
  validate_pay_period_dates (Some "2024-01-15") (Some "2024-01-01") = Err InvalidRange /\
  sql_le (Some "2024-01-15") (Some "2024-01-01") = false.
Proof.
  destruct (canonical_pay_period_dates 2024 1 15 2024 1 1) as [H1 H2];
    try (vm_compute; split; discriminate).
  split; [exact H1|exact H2].
Defined.

(** ** Pay periods in calendar order (C3) *)




(** ** Witnesses of the listing and update properties *)



Lemma categories_ok_db_shared_category : categories_ok db_shared_category.
Proof.
  split; [|split; [|split]].
  - constructor; [intros []|constructor].
  - constructor; [intros []|constructor].
  - constructor; [cbn; lia|constructor].
  - constructor; [cbn; lia|constructor].
Qed.

Lemma categories_ok_preserved_witness :
  categories_ok (snd (run (create_category (mkCategoryCreate "Rent" None)) db_shared_category)) /\
  categories_ok (snd (run (delete_category 1) db_shared_category)).
Proof.
  split.
  - apply (proj1 categories_ok_preserved). exact categories_ok_db_shared_category.
  - apply (proj2 (proj2 categories_ok_preserved)). exact categories_ok_db_shared_category.
Defined.

Lemma update_category_outcomes_witness :
  run (update_category 1 (mkCategoryUpdate (Some None) None)) db_shared_category
    = (Err IntegrityError, db_shared_category) /\
  run (update_category 1 (mkCategoryUpdate (Some (Some "Groceries")) (Some None))) db_shared_category
    = (Ok (mkCategory 1 "Groceries" None),
       replace_category db_shared_category (mkCategory 1 "Groceries" None)).
Proof.
  split.
  - apply (proj1 (proj2 (proj2 update_category_outcomes))). vm_compute. discriminate.
  - exact (proj2 (proj2 (proj2 update_category_outcomes)) db_shared_category 1
             (mkCategory 1 "Groceries" (Some 400)) (Some None)
             categories_ok_db_shared_category eq_refl).
Defined.

Lemma delete_category_succeeds_unreferenced_witness :
  exists db',
    run (delete_category 1) (set_projected_expenses db_shared_category []) = (Ok tt, db') /\
    find_category db' 1 = None.
Proof.
  destruct (proj2 delete_category_succeeds_unreferenced
              (set_projected_expenses db_shared_category []) 1) as [db' [H1 [H2 _]]].
  - vm_compute. discriminate.
  - intros e [].
  - exists db'. split; [exact H1|exact H2].
Defined.

Lemma create_then_get_witness :
  run (create_category (mkCategoryCreate "Rent" None)) empty_db
    = (Ok (mkCategory 1 "Rent" None), set_categories empty_db [mkCategory 1 "Rent" None] 2) /\
  get_category 1 (set_categories empty_db [mkCategory 1 "Rent" None] 2) = Ok (mkCategory 1 "Rent" None).
Proof.
  split; [reflexivity|].
  apply (proj1 create_then_get empty_db (mkCategoryCreate "Rent" None) (mkCategory 1 "Rent" None)
           (set_categories empty_db [mkCategory 1 "Rent" None] 2)).
  - constructor.
  - reflexivity.
Defined.

Lemma update_transaction_outcomes_witness :
  run (update_transaction 1 (mkTransactionUpdateRequest (Some (Some 7)) None None None))
      db_shared_category = (Err InvalidCategory, db_shared_category) /\
  Forall2 (fun x x' => txn_id x' = txn_id x /\ txn_transaction_id x' = txn_transaction_id x /\
                       txn_date x' = txn_date x /\ txn_name x' = txn_name x /\
                       txn_amount x' = txn_amount x /\ (txn_id x <> 1 -> x' = x))
          (transactions db_shared_category)
          [mkTransaction 1 "txn-a" "2024-03-02" "Kroger" (-62) None None].
Proof.
  split.
  - apply (proj1 (proj2 update_transaction_outcomes) db_shared_category 1 _ 7);
      [vm_compute; discriminate|reflexivity|reflexivity].
  - refine (proj2 (proj2 (proj2 (proj2 (proj2 (proj2 update_transaction_outcomes)
               db_shared_category 1 (mkTransactionUpdateRequest (Some None) None None None)
               (mkTransaction 1 "txn-a" "2024-03-02" "Kroger" (-62) None None)
               (set_transactions db_shared_category
                  [mkTransaction 1 "txn-a" "2024-03-02" "Kroger" (-62) None None]) _ _))))).
    + constructor; [intros []|constructor].
    + reflexivity.
Defined.


Lemma update_projected_expense_outcomes_witness :
  run (update_projected_expense 1 (mkProjectedExpenseUpdate None None None None None None (Some (Some 9))))
      db_shared_category = (Err InvalidTransaction, db_shared_category) /\
  (exists err,
     run (update_projected_expense 1 (mkProjectedExpenseUpdate None (Some None) None None None None None))
         db_shared_category = (Err err, db_shared_category)) /\
  let upd := mkProjectedExpenseUpdate None None None None None (Some None) None in
  let e' := mkProjectedExpense 1 "Grocery Restock" 100 "2024-03-05" (Some 1) None None None in
  let db' := set_projected_expenses db_shared_category [e'] in
  update_projected_expense 1 upd db_shared_category = Ok ((e', Some "Groceries"), db') /\
  projected_expense_response (e', Some "Groceries") = Err ResponseValidation /\
  get_projected_expenses [("start_date", "2024-03-01"); ("end_date", "2024-03-31")] db'
    = Err ResponseValidation.
Proof.
  split; [|split].
  - apply (proj1 (proj2 update_projected_expense_outcomes) _ _ _ 9).
    + vm_compute. discriminate.
    + intros c [=].
    + reflexivity.
    + reflexivity.
  - apply (proj1 (proj2 (proj2 update_projected_expense_outcomes))). right. left. reflexivity.
  - cbv zeta.
    assert (H : update_projected_expense 1 (mkProjectedExpenseUpdate None None None None None (Some None) None)
                  db_shared_category
                = Ok ((mkProjectedExpense 1 "Grocery Restock" 100 "2024-03-05" (Some 1) None None None,
                       Some "Groceries"),
                      set_projected_expenses db_shared_category
                        [mkProjectedExpense 1 "Grocery Restock" 100 "2024-03-05" (Some 1) None None None]))
      by (vm_compute; reflexivity).
    destruct (proj2 (proj2 (proj2 update_projected_expense_outcomes)) _ _ _ _ _ _ H)
      as [_ [_ [_ [Hresp Hl]]]].
    split; [exact H|split; [exact (Hresp eq_refl)|]].
    exact (proj2 (Hl [("start_date", "2024-03-01"); ("end_date", "2024-03-31")]
                     "2024-03-01" "2024-03-31" eq_refl eq_refl) eq_refl eq_refl eq_refl eq_refl).
Defined.

Lemma delete_category_after_clearing_expenses_witness :
  exists db2,
    run (delete_category 1)
        (fold_left (fun d j => snd (run (delete_projected_expense j) d)) [1] db_shared_category)
      = (Ok tt, db2) /\ find_category db2 1 = None.
Proof.
  destruct (delete_category_after_clearing_expenses db_shared_category 1) as [db2 [H1 [H2 _]]].
  - vm_compute. discriminate.
  - exists db2. split; [exact H1|exact H2].
Defined.

(** ** Refresh status *)

Lemma find_map_update {A} (key : A -> string) (k : string) (f : A -> A) (l : list A) :
  (forall m, key (f m) = key m) ->
  find (fun m => String.eqb (key m) k) (map (fun m => if String.eqb (key m) k then f m else m) l)
  = option_map f (find (fun m => String.eqb (key m) k) l).
Proof.
  intros Hk. induction l as [|m l IH]; cbn; [reflexivity|].
  destruct (String.eqb (key m) k) eqn:E; cbn.
  - rewrite Hk, E. reflexivity.
  - rewrite E. exact IH.
Qed.

Lemma record_refresh_find (db : Db) (now : Z) :
  find_refresh_metadata (record_refresh db now) = Some (mkRefreshMetadata refresh_key now).
Proof.
  unfold record_refresh. destruct (find_refresh_metadata db) as [m|] eqn:Hf.
  - unfold find_refresh_metadata in *. cbn [refresh_metadata set_refresh_metadata].
    rewrite find_map_update by reflexivity. rewrite Hf. cbn.
    apply find_some in Hf as [_ Hm]. apply String.eqb_eq in Hm. rewrite Hm. reflexivity.
  - unfold find_refresh_metadata in *. cbn [refresh_metadata set_refresh_metadata].
    rewrite find_app_none by exact Hf. reflexivity.
Qed.


